(** * Expense tracker: the OTP helpers and the dashboard's form logic

    A shallow embedding of the OTP functions of
    [expense_tracker/authorization.py] and of the helpers and form handlers
    of [expense_tracker/app.py] that carry logic of their own.

    Conventions.
    - Python values are the small universe [Py.value]; [Py.str] and
      [Py.truthy] follow the interpreter.
    - The key-value store is reached through a client handle whose
      commands are answered.  The handle carries the reply mode and the
      data it can reach: a finite map from keys to a byte string with the
      instant at which the key expires.  Commands run in a state-and-error
      monad over the handle.
    - Clock readings are integers (seconds); every operation that reads
      the clock takes the reading as the argument [now].
    - [randint] is the finite uniform distribution, written as the list of
      its equally likely outcomes. *)

From stdpp Require Import gmap strings list fin_maps pretty list_numbers.
From Stdlib Require Import ZArith Lia Ascii String SpecFloat.

Local Open Scope string_scope.
Local Open Scope Z_scope.

(** ** Outcomes: a returned value or a raised exception *)

Inductive exn : Type :=
  | Exception (msg : string)          (* plain [Exception(msg)] *)
  | ResponseError (msg : string)      (* error reply of the store *)
  | DataError (msg : string)          (* value the client cannot encode *)
  | JWTError (msg : string)
  | ExpiredSignatureError (msg : string)
  | OverflowError (msg : string).

Inductive outcome (A : Type) : Type :=
  | Ok (a : A)
  | Raise (e : exn).
Arguments Ok {A} a.
Arguments Raise {A} e.

Definition obind {A B} (m : outcome A) (k : A → outcome B) : outcome B :=
  match m with
  | Ok a => k a
  | Raise e => Raise e
  end.

(** ** Python values *)

Module Py.

Inductive value : Type :=
  | VNone
  | VInt (n : Z)
  | VStr (s : string)
  | VBytes (s : string).

(** [bool(v)]: [None], [0] and empty sequences are falsy. *)
Definition truthy (v : value) : bool :=
  match v with
  | VNone => false
  | VInt n => negb (n =? 0)
  | VStr s | VBytes s => negb (String.eqb s "")
  end.

Definition dquote : ascii := "034"%char.
Definition squote : ascii := "'"%char.
Definition backslash : ascii := "\"%char.

Fixpoint contains (c : ascii) (s : string) : bool :=
  match s with
  | EmptyString => false
  | String d s' => Ascii.eqb c d || contains c s'
  end.

Definition hexdigit (n : N) : ascii :=
  match n with
  | 0 => "0" | 1 => "1" | 2 => "2" | 3 => "3" | 4 => "4" | 5 => "5"
  | 6 => "6" | 7 => "7" | 8 => "8" | 9 => "9" | 10 => "a" | 11 => "b"
  | 12 => "c" | 13 => "d" | 14 => "e" | _ => "f"
  end%char%N.

(** One byte of [repr(bytes)], for the chosen quote character. *)
Definition repr_byte (quote c : ascii) : string :=
  let n := N_of_ascii c in
  if Ascii.eqb c quote || Ascii.eqb c backslash then String backslash (String c "")
  else if (n =? 9)%N then "\t"
  else if (n =? 10)%N then "\n"
  else if (n =? 13)%N then "\r"
  else if (n <? 32)%N || (127 <=? n)%N then
    String backslash (String "x" (String (hexdigit (n / 16)) (String (hexdigit (n mod 16)) "")))
  else String c "".

Fixpoint repr_body (quote : ascii) (s : string) : string :=
  match s with
  | EmptyString => ""
  | String c s' => repr_byte quote c +:+ repr_body quote s'
  end.

(** [repr(b)] for a bytes object: [b'...'], with double quotes when the
    bytes hold a single quote and no double quote. *)
Definition repr_bytes (s : string) : string :=
  let quote := if contains squote s && negb (contains dquote s) then dquote else squote in
  String "b" (String quote (repr_body quote s +:+ String quote "")).

(** [str(v)]. *)
Definition str (v : value) : string :=
  match v with
  | VNone => "None"
  | VInt n => pretty n
  | VStr s => s
  | VBytes s => repr_bytes s
  end.

End Py.

(** ** The expiring key-value store, as seen through the client *)

Module Redis.

Record entry : Type := { value : string; expires_at : Z }.

(** A client handle whose commands are answered: its reply mode
    ([decode_responses]) and the data it reaches. *)
Record client : Type := { decode_responses : bool; db : gmap string entry }.

(** Commands: state and error over the handle. *)
Definition cmd (A : Type) : Type := client → outcome (A * client).

(** Values go over the wire as bytes: an int as its decimal digits. *)
Definition encode (v : Py.value) : outcome string :=
  match v with
  | Py.VNone => Raise (DataError "Invalid input of type: 'NoneType'")
  | Py.VInt n => Ok (pretty n)
  | Py.VStr s | Py.VBytes s => Ok s
  end.

(** A bulk reply, as the client hands it to the caller. *)
Definition reply (c : client) (bytes : string) : Py.value :=
  if decode_responses c then Py.VStr bytes else Py.VBytes bytes.

(** The value a key holds at instant [now], if it has not expired. *)
Definition lookup (c : client) (key : string) (now : Z) : option string :=
  match db c !! key with
  | Some e => if now <? expires_at e then Some (value e) else None
  | None => None
  end.

(** GET *)
Definition get (key : string) (now : Z) : cmd Py.value :=
  λ c, Ok (match lookup c key now with
           | Some bytes => reply c bytes
           | None => Py.VNone
           end, c).

(** SETEX key seconds value.  The server refuses an expire time that is
    not positive.  The wording of the refusal is the server's and differs
    between its releases: release 6.2 words it as below, release 7 as
    "invalid expire time in 'setex' command".  No statement of this file
    depends on the wording. *)
Definition setex (key : string) (seconds : Z) (v : Py.value) (now : Z) : cmd unit :=
  λ c, obind (encode v) (λ bytes,
    if seconds <=? 0 then Raise (ResponseError "invalid expire time in setex")
    else Ok (tt, {| decode_responses := decode_responses c;
                    db := <[key := {| value := bytes; expires_at := now + seconds |}]> (db c) |})).

(** DEL key: the reply counts the keys removed. *)
Definition delete (key : string) (now : Z) : cmd Z :=
  λ c, Ok (match lookup c key now with Some _ => 1 | None => 0 end,
           {| decode_responses := decode_responses c; db := base.delete key (db c) |}).

End Redis.

(** [timedelta(minutes=m)], in seconds.  A timedelta holds at most
    999999999 days either way; the constructor raises beyond that. *)
Definition timedelta_minutes (m : Z) : outcome Z :=
  let days := m / 1440 in
  if (-999999999 <=? days) && (days <=? 999999999) then Ok (60 * m)
  else if (-2147483648 <=? days) && (days <=? 2147483647)
  then Raise (OverflowError ("days=" +:+ pretty days +:+ "; must have magnitude <= 999999999"))
  else Raise (OverflowError "Python int too large to convert to C int").

(** ** Finite uniform distributions *)

(** A distribution is the list of its equally likely outcomes. *)
Definition dist (A : Type) : Type := list A.

(** [random.randint(a, b)]: uniform over the integers [a..b], both ends included. *)
Definition randint (a b : Z) : dist Z := seqZ a (b - a + 1).
Global Arguments randint : simpl never.

(** ** authorization.py: the OTP workflow *)

(** The module global [r], as the two functions below read it: [None], or
    a client handle whose commands are answered. *)
Definition redis_global : Type := option Redis.client.

Definition redis_key (email : string) : string := "otp:" +:+ email.

Definition default_expire_minutes : Z := 5.

Definition generate_otp (email : string) (expire_minutes : Z) (now : Z) (r : redis_global)
  : dist (outcome (Z * redis_global)) :=
  match r with
  | None => [Raise (Exception "Redis client is not connected.")]
  | Some c =>
      otp ← randint 100000 999999;
      [obind (timedelta_minutes expire_minutes) (λ expiry,
         obind (Redis.setex (redis_key email) expiry (Py.VInt otp) now c)
               (λ '(_, c'), Ok (otp, Some c')))]
  end.

Definition verify_otp (email : string) (otp_input : Py.value) (now : Z) (r : redis_global)
  : outcome (bool * redis_global) :=
  match r with
  | None => Ok (false, r)
  | Some c =>
      obind (Redis.get (redis_key email) now c) (λ '(stored_otp, c1),
        if negb (Py.truthy stored_otp) then Ok (false, Some c1)
        else if negb (String.eqb (Py.str stored_otp) (Py.str otp_input)) then Ok (false, Some c1)
        else obind (Redis.delete (redis_key email) now c1) (λ '(_, c2), Ok (true, Some c2)))
  end.

(** ** app.py: the second step of the registration form *)

(** What the handler does, in order. *)
Inductive ui_event : Type :=
  | call_verify_otp_and_register (email otp password : string)
  | st_success (msg : string)
  | st_info (msg : string)
  | st_error (msg : string)
  | st_warning (msg : string)
  | del_reg_email.

(** A text input is truthy when it is not empty. *)
Definition filled (s : string) : bool := negb (String.eqb s "").

(** Lines 269-284.  [verify_otp_and_register] is the only step that
    reaches the network; its answer [(success, message)] comes from the
    environment and the call is recorded. *)
Definition register_step2
    (verify_otp_and_register : string → string → string → bool * string)
    (reg_email otp reg_password confirm_password : string) (submit_reg : bool)
  : list ui_event :=
  if submit_reg then
    if filled otp && filled reg_password then
      if String.eqb reg_password confirm_password then
        let '(success, message) := verify_otp_and_register reg_email otp reg_password in
        call_verify_otp_and_register reg_email otp reg_password ::
        (if success
         then [st_success message; st_info "Please login with your credentials"; del_reg_email]
         else [st_error message])
      else [st_error "Passwords do not match"]
    else [st_warning "Please fill in all fields"]
  else [].

Definition is_network_call (e : ui_event) : bool :=
  match e with call_verify_otp_and_register _ _ _ => true | _ => false end.

Definition is_error (e : ui_event) : bool :=
  match e with st_error _ => true | _ => false end.

(** ** app.py: [update_expense] *)

(** A Python number: an int or a binary64 float. *)
Inductive number : Type :=
  | NInt (n : Z)
  | NFloat (f : spec_float).

(** [bool(x)] for a number: zero (of either sign) is falsy, NaN is truthy. *)
Definition number_truthy (x : number) : bool :=
  match x with
  | NInt n => negb (n =? 0)
  | NFloat (S754_zero _) => false
  | NFloat _ => true
  end.

(** [float(x)]: an int is rounded to the nearest binary64, and one too
    large for the format raises. *)
Definition py_float (x : number) : outcome spec_float :=
  match x with
  | NFloat f => Ok f
  | NInt n =>
      match binary_normalize 53 1024 n 0 false with
      | S754_infinity _ => Raise (OverflowError "int too large to convert to float")
      | f => Ok f
      end
  end.

Record date : Type := { year : Z; month : Z; day : Z }.

(** Decimal digits of [n], padded with zeros on the left to [width]. *)
Definition zero_pad (width : nat) (n : Z) : string :=
  let digits := pretty n in
  String.concat "" (replicate (width - String.length digits) "0") +:+ digits.

(** [date.isoformat()]: YYYY-MM-DD. *)
Definition isoformat (d : date) : string :=
  zero_pad 4 (year d) +:+ "-" +:+ zero_pad 2 (month d) +:+ "-" +:+ zero_pad 2 (day d).

Inductive json : Type :=
  | JString (s : string)
  | JNumber (f : spec_float).

(** [dict.get(key, default)] on a decoded JSON object of strings. *)
Definition dict_get (d : gmap string string) (key fallback : string) : string :=
  default fallback (d !! key).

Record request : Type :=
  { url : string; body : gmap string json; headers : gmap string string }.

Record response : Type :=
  { status_code : Z; response_json : outcome (gmap string string) }.

(** [get_headers()], from the session's token. *)
Definition get_headers (token : option string) : gmap string string :=
  let headers : gmap string string := {[ "Content-Type" := "application/json" ]} in
  match token with
  | Some t => if filled t then <["Authorization" := "Bearer " +:+ t]> headers else headers
  | None => headers
  end.

(** Lines 156-162: the payload, built field by field. *)
Definition update_expense_data (category : option string) (amount : option number)
    (expense_date : option date) : outcome (gmap string json) :=
  let data : gmap string json := ∅ in
  let data :=
    match category with
    | Some c => if filled c then <["category" := JString c]> data else data
    | None => data
    end in
  obind
    (match amount with
     | Some a =>
         if number_truthy a
         then obind (py_float a) (λ f, Ok (<["amount" := JNumber f]> data))
         else Ok data
     | None => Ok data
     end)
    (λ data,
      Ok (match expense_date with
          | Some d => <["date" := JString (isoformat d)]> data
          | None => data
          end)).

Definition exn_str (e : exn) : string :=
  match e with
  | Exception m | ResponseError m | DataError m | JWTError m
  | ExpiredSignatureError m | OverflowError m => m
  end.

(** Lines 153-174.  [post] is [requests.post]; the result pairs what the
    function returns with the requests it has sent. *)
Definition update_expense (API_BASE_URL : string) (token : option string)
    (post : request → outcome response)
    (expense_id : Z) (category : option string) (amount : option number)
    (expense_date : option date) : (bool * string) * list request :=
  match update_expense_data category amount expense_date with
  | Raise e => ((false, "Error: " +:+ exn_str e), [])
  | Ok data =>
      let req := {| url := API_BASE_URL +:+ "/update_expense/" +:+ pretty expense_id;
                    body := data; headers := get_headers token |} in
      match post req with
      | Raise e => ((false, "Error: " +:+ exn_str e), [req])
      | Ok resp =>
          if status_code resp =? 200 then ((true, "Expense updated successfully!"), [req])
          else match response_json resp with
               | Ok d => ((false, dict_get d "detail" "Failed to update expense"), [req])
               | Raise e => ((false, "Error: " +:+ exn_str e), [req])
               end
      end
  end.

(** ** Auxiliary notions used by the statements *)

(** The data invariant of the OTP records: every value the handle reaches
    is the decimal form of a six-digit code, which is all that
    [generate_otp] ever writes. *)
Definition holds_codes (r : redis_global) : Prop :=
  ∀ c key e, r = Some c → Redis.db c !! key = Some e →
    ∃ n : Z, 100000 ≤ n ≤ 999999 ∧ Redis.value e = pretty n.

(** The codes returned by the outcomes of a run of [generate_otp]. *)
Definition returned_codes (outs : dist (outcome (Z * redis_global))) : list Z :=
  omap (λ out, match out with Ok (otp, _) => Some otp | Raise _ => None end) outs.

(** A run of verification attempts, each a submitted code with the clock
    reading at which it is made. *)
Fixpoint verify_attempts (email : string) (attempts : list (Py.value * Z)) (r : redis_global)
  : outcome (list bool * redis_global) :=
  match attempts with
  | [] => Ok ([], r)
  | (otp_input, now) :: rest =>
      obind (verify_otp email otp_input now r) (λ '(b, r1),
        obind (verify_attempts email rest r1) (λ '(bs, r2), Ok (b :: bs, r2)))
  end.

(** Sample states for the instances below: a handle that reaches one
    pending code for a@b.com, stored at instant 0 for five minutes. *)
Definition sample_db : gmap string Redis.entry :=
  {[ redis_key "a@b.com" := {| Redis.value := "123456"; Redis.expires_at := 300 |} ]}.

Definition sample_client (decode : bool) : Redis.client :=
  {| Redis.decode_responses := decode; Redis.db := sample_db |}.

(** A handle that decodes replies to [str], over the data [data]. *)
Definition decoding_client (data : gmap string Redis.entry) : Redis.client :=
  {| Redis.decode_responses := true; Redis.db := data |}.

(** The pending record of [email]: the code [otp], to expire at [expires]. *)
Definition pending (email : string) (otp expires : Z) : gmap string Redis.entry :=
  {[ redis_key email := {| Redis.value := pretty otp; Redis.expires_at := expires |} ]}.

(** ** Runs of the OTP operations *)

(** One operation on the module global: a [generate_otp] whose draw gave
    [otp], or a [verify_otp] that returned [b]. *)
Inductive otp_step : redis_global → redis_global → Prop :=
  | step_generate (email : string) (expire_minutes now otp : Z) (r r' : redis_global) :
      Ok (otp, r') ∈ generate_otp email expire_minutes now r → otp_step r r'
  | step_verify (email : string) (otp_input : Py.value) (now : Z) (b : bool)
      (r r' : redis_global) :
      verify_otp email otp_input now r = Ok (b, r') → otp_step r r'.

(** The reply mode of the handle, if there is one. *)
Definition reply_mode (r : redis_global) : option bool := Redis.decode_responses <$> r.

(** ** app.py: the session *)

Record chat_message : Type := { role : string; content : string }.

Module SessionState.

Record t : Type :=
  { token : option string; user_email : option string; chat_history : list chat_message }.

(** Lines 52-57. *)
Definition initial : t := {| token := None; user_email := None; chat_history := [] |}.

End SessionState.

(** What a handler does besides showing something: [st.rerun()] ends the
    run, [del st.session_state.edit_expense] closes the edit form. *)
Inductive app_event : Type :=
  | show (e : ui_event)
  | st_rerun
  | del_edit_expense.

(** Lines 205-210. *)
Definition logout (s : SessionState.t) : list app_event * SessionState.t :=
  ([st_rerun],
   {| SessionState.token := None; SessionState.user_email := None;
      SessionState.chat_history := [] |}).

(** ** app.py: [login] and the login form *)

(** A request whose body is form data ([data=...]). *)
Record form_request : Type :=
  { form_url : string; form_data : gmap string string; form_headers : gmap string string }.

(** Lines 66-86.  The result pairs what the function returns with the
    session it leaves and the requests it has sent. *)
Definition login (API_BASE_URL : string) (post : form_request → outcome response)
    (email password : string) (s : SessionState.t)
  : (bool * string) * SessionState.t * list form_request :=
  let data : gmap string string := <["password" := password]> {[ "username" := email ]} in
  let req := {| form_url := API_BASE_URL +:+ "/token"; form_data := data;
                form_headers := {[ "Content-Type" := "application/x-www-form-urlencoded" ]} |} in
  match post req with
  | Raise e => ((false, "Error: " +:+ exn_str e), s, [req])
  | Ok resp =>
      if status_code resp =? 200 then
        match response_json resp with
        | Raise e => ((false, "Error: " +:+ exn_str e), s, [req])
        | Ok result =>
            match result !! "access_token" with
            | None => ((false, "Error: 'access_token'"), s, [req])   (* KeyError *)
            | Some access_token =>
                ((true, "Login successful!"),
                 {| SessionState.token := Some access_token;
                    SessionState.user_email := Some email;
                    SessionState.chat_history := SessionState.chat_history s |},
                 [req])
            end
        end
      else
        match response_json resp with
        | Ok d => ((false, dict_get d "detail" "Login failed"), s, [req])
        | Raise e => ((false, "Error: " +:+ exn_str e), s, [req])
        end
  end.

(** Lines 221-235. *)
Definition login_form (API_BASE_URL : string) (post : form_request → outcome response)
    (email password : string) (submit : bool) (s : SessionState.t)
  : list app_event * SessionState.t * list form_request :=
  if submit then
    if filled email && filled password then
      let '((success, message), s', sent) := login API_BASE_URL post email password s in
      if success then ([show (st_success message); st_rerun], s', sent)
      else ([show (st_error message)], s', sent)
    else ([show (st_warning "Please fill in all fields")], s, [])
  else ([], s, []).

(** ** app.py: [add_expense] and the add form *)

(** JSON values of the kinds the expense records and payloads carry. *)
Inductive jvalue : Type :=
  | JNull
  | JText (s : string)
  | JNum (x : number).

Record api_request : Type :=
  { api_url : string; api_json : gmap string jvalue; api_headers : gmap string string }.

(** Lines 132-151. *)
Definition add_expense (API_BASE_URL : string) (token : option string)
    (post : api_request → outcome response)
    (category : string) (amount : number) (amount_type : string) (expense_date : option date)
  : (bool * string) * list api_request :=
  match py_float amount with
  | Raise e => ((false, "Error: " +:+ exn_str e), [])
  | Ok f =>
      let data : gmap string jvalue :=
        <["date" := match expense_date with
                    | Some d => JText (isoformat d)
                    | None => JNull
                    end]>
        (<["amount_type" := JText amount_type]>
        (<["amount" := JNum (NFloat f)]>
        {[ "category" := JText category ]})) in
      let req := {| api_url := API_BASE_URL +:+ "/addexpense"; api_json := data;
                    api_headers := get_headers token |} in
      match post req with
      | Raise e => ((false, "Error: " +:+ exn_str e), [req])
      | Ok resp =>
          if status_code resp =? 200 then ((true, "Expense added successfully!"), [req])
          else match response_json resp with
               | Ok d => ((false, dict_get d "detail" "Failed to add expense"), [req])
               | Raise e => ((false, "Error: " +:+ exn_str e), [req])
               end
      end
  end.

(** Lines 371-394. *)
Definition add_expense_form (API_BASE_URL : string) (token : option string)
    (post : api_request → outcome response)
    (category : string) (amount : number) (amount_type : string) (expense_date : option date)
    (submit : bool) : list app_event * list api_request :=
  if submit then
    if filled category && number_truthy amount then
      let '((success, message), sent) :=
        add_expense API_BASE_URL token post category amount amount_type expense_date in
      if success then ([show (st_success message); st_rerun], sent)
      else ([show (st_error message)], sent)
    else ([show (st_warning "Please fill in all required fields")], [])
  else ([], []).

(** ** app.py: the edit form *)

(** [f == n] for a float and an int: the comparison is exact. *)
Definition float_eq_int (f : spec_float) (n : Z) : bool :=
  match f with
  | S754_zero _ => n =? 0
  | S754_finite s m e =>
      let v := if s then Z.neg m else Z.pos m in
      if 0 <=? e then v * 2 ^ e =? n else v =? n * 2 ^ (- e)
  | _ => false
  end.

(** [x == y] on numbers. *)
Definition number_eqb (x y : number) : bool :=
  match x, y with
  | NInt a, NInt b => a =? b
  | NFloat f, NFloat g => SFeqb f g
  | NFloat f, NInt n | NInt n, NFloat f => float_eq_int f n
  end.

(** [text != expense.get(key)] and [amount != expense.get(key)], negated. *)
Definition same_text (v : option jvalue) (text : string) : bool :=
  match v with
  | Some (JText t) => String.eqb text t
  | _ => false
  end.

Definition same_amount (v : option jvalue) (amount : spec_float) : bool :=
  match v with
  | Some (JNum x) => number_eqb (NFloat amount) x
  | _ => false
  end.

(** Lines 471-483, the "Update" button of the edit form.  [expense] is
    [st.session_state.edit_expense] and [expense_id] its ["id"]. *)
Definition edit_expense_form (API_BASE_URL : string) (token : option string)
    (post : request → outcome response)
    (expense : gmap string jvalue) (expense_id : Z)
    (edit_category : string) (edit_amount : spec_float) (edit_date : date)
  : list app_event * list request :=
  let '((success, message), sent) :=
    update_expense API_BASE_URL token post expense_id
      (if same_text (expense !! "category") edit_category then None else Some edit_category)
      (if same_amount (expense !! "amount") edit_amount then None else Some (NFloat edit_amount))
      (Some edit_date) in
  if success then ([show (st_success message); del_edit_expense; st_rerun], sent)
  else ([show (st_error message)], sent).

(** ** app.py: search and filter of the expenses tab *)

Fixpoint starts_with (p s : string) : bool :=
  match p, s with
  | EmptyString, _ => true
  | String a p', String b s' => Ascii.eqb a b && starts_with p' s'
  | String _ _, EmptyString => false
  end.

(** [needle in hay] for strings. *)
Fixpoint py_in (needle hay : string) : bool :=
  starts_with needle hay ||
  match hay with
  | EmptyString => false
  | String _ rest => py_in needle rest
  end.

(** [e.get('category', '').lower()]: only a string has [lower]; on another
    value the attribute lookup raises (an [AttributeError], written here
    with its message).  [lower] is [str.lower]. *)
Definition category_lower (lower : string → string) (e : gmap string jvalue) : outcome string :=
  match e !! "category" with
  | None => Ok (lower "")
  | Some (JText s) => Ok (lower s)
  | Some JNull => Raise (Exception "'NoneType' object has no attribute 'lower'")
  | Some (JNum (NInt _)) => Raise (Exception "'int' object has no attribute 'lower'")
  | Some (JNum (NFloat _)) => Raise (Exception "'float' object has no attribute 'lower'")
  end.

(** Lines 413-414: the comprehension stops at the first record that raises. *)
Fixpoint search_expenses (lower : string → string) (search_term : string)
    (expenses : list (gmap string jvalue)) : outcome (list (gmap string jvalue)) :=
  match expenses with
  | [] => Ok []
  | e :: rest =>
      obind (category_lower lower e) (λ c,
        obind (search_expenses lower search_term rest) (λ kept,
          Ok (if py_in (lower search_term) c then e :: kept else kept)))
  end.

Definition has_type (amount_type : string) (e : gmap string jvalue) : bool :=
  match e !! "amount_type" with
  | Some (JText t) => String.eqb t amount_type
  | _ => false
  end.

(** Lines 411-418. *)
Definition filter_expenses (lower : string → string) (expenses : list (gmap string jvalue))
    (search_term filter_type : string) : outcome (list (gmap string jvalue)) :=
  obind (if filled search_term then search_expenses lower search_term expenses else Ok expenses)
    (λ filtered_expenses,
      Ok (if String.eqb filter_type "Income"
          then List.filter (has_type "credit") filtered_expenses
          else if String.eqb filter_type "Expenses"
          then List.filter (has_type "debit") filtered_expenses
          else filtered_expenses)).

(** ** app.py: the chat tab *)

(** Lines 509-530.  [chat_with_ai] is the helper of lines 190-203, whose
    answer [(success, response)] comes from the environment. *)
Definition chat_tab (chat_with_ai : string → bool * string)
    (user_query : option string) (clear_chat : bool) (s : SessionState.t)
  : list app_event * SessionState.t :=
  let with_history h :=
    {| SessionState.token := SessionState.token s;
       SessionState.user_email := SessionState.user_email s;
       SessionState.chat_history := h |} in
  match user_query with
  | Some q =>
      if filled q then
        let history := (SessionState.chat_history s ++ [{| role := "user"; content := q |}])%list in
        let '(success, response) := chat_with_ai q in
        if success
        then ([st_rerun],
              with_history (history ++ [{| role := "assistant"; content := response |}])%list)
        else ([show (st_error response); st_rerun],
              with_history (history ++ [{| role := "assistant";
                                           content := "Sorry, I encountered an error." |}])%list)
      else if clear_chat then ([st_rerun], with_history []) else ([], s)
  | None => if clear_chat then ([st_rerun], with_history []) else ([], s)
  end.


(** One interaction with the session: a run of the chat tab, a login, or a
    logout. *)
Inductive interaction : Type :=
  | do_chat (chat_with_ai : string → bool * string) (user_query : option string)
            (clear_chat : bool)
  | do_login (API_BASE_URL : string) (post : form_request → outcome response)
             (email password : string) (submit : bool)
  | do_logout.

Definition interact (i : interaction) (s : SessionState.t) : SessionState.t :=
  match i with
  | do_chat chat_with_ai user_query clear_chat => (chat_tab chat_with_ai user_query clear_chat s).2
  | do_login API_BASE_URL post email password submit =>
      (login_form API_BASE_URL post email password submit s).1.2
  | do_logout => (logout s).2
  end.

(** * Properties *)

(** ** Sanity checks of the embedding *)

Example py_str_int : Py.str (Py.VInt 123456) = "123456".
Proof. reflexivity. Qed.

Example py_str_bytes : Py.str (Py.VBytes "123456") = "b'123456'".
Proof. reflexivity. Qed.

Example isoformat_example : isoformat {| year := 2024; month := 3; day := 7 |} = "2024-03-07".
Proof. reflexivity. Qed.

Example py_float_int : py_float (NInt 3) = Ok (S754_finite false 6755399441055744 (-51)).
Proof. reflexivity. Qed.


(** ** Decimal forms and keys *)

Lemma pretty_N_go_nonempty (x : N) (s : string) : s ≠ "" → pretty_N_go x s ≠ "".
Proof.
  revert s. induction (N.lt_wf_0 x) as [x _ IH]; intros s Hs.
  destruct (decide (x = 0)%N) as [->|Hx].
  - by rewrite pretty_N_go_0.
  - rewrite pretty_N_go_step by lia.
    apply IH; [apply N.div_lt; lia | done].
Qed.

Lemma pretty_positive_nonempty (p : positive) : pretty p ≠ "".
Proof.
  unfold pretty, pretty_positive, pretty, pretty_N.
  case_decide; [done|].
  rewrite pretty_N_go_step by lia.
  by apply pretty_N_go_nonempty.
Qed.

Lemma pretty_Z_nonempty (n : Z) : pretty n ≠ "".
Proof.
  destruct n as [|p|p]; unfold pretty, pretty_Z; [done| |done].
  apply pretty_positive_nonempty.
Qed.

Lemma redis_key_inj (e1 e2 : string) : redis_key e1 = redis_key e2 → e1 = e2.
Proof. unfold redis_key; cbn. intros [= H]. exact H. Qed.

Lemma string_eqb_false (s1 s2 : string) : s1 ≠ s2 → String.eqb s1 s2 = false.
Proof. intros H. by apply String.eqb_neq. Qed.

(** ** The store commands, read back *)

Lemma lookup_after_setex (c c' : Redis.client) (key : string) (seconds : Z) (v : Py.value)
    (now : Z) (u : unit) :
  Redis.setex key seconds v now c = Ok (u, c') →
  ∃ bytes, Redis.encode v = Ok bytes ∧ 0 < seconds ∧
    Redis.decode_responses c' = Redis.decode_responses c ∧
    Redis.db c' = <[key := {| Redis.value := bytes; Redis.expires_at := now + seconds |}]> (Redis.db c) ∧
    ∀ t, Redis.lookup c' key t = if t <? now + seconds then Some bytes else None.
Proof.
  unfold Redis.setex. destruct (Redis.encode v) as [bytes|] eqn:He; simpl; [|done].
  destruct (seconds <=? 0) eqn:Hs; [done|]. intros [= <- <-].
  exists bytes. repeat split; [lia|]. intros t.
  unfold Redis.lookup; simpl. by rewrite lookup_insert_eq.
Qed.

Lemma lookup_after_delete (c : Redis.client) (key : string) (now t : Z) (n : Z) (c' : Redis.client) :
  Redis.delete key now c = Ok (n, c') → Redis.lookup c' key t = None.
Proof.
  unfold Redis.delete. intros [= _ <-]. unfold Redis.lookup; simpl.
  by rewrite lookup_delete_eq.
Qed.

Lemma truthy_reply (c : Redis.client) (bytes : string) :
  Py.truthy (Redis.reply c bytes) = negb (String.eqb bytes "").
Proof. unfold Redis.reply. by destruct (Redis.decode_responses c). Qed.

(** ** [verify_otp], case by case *)

Lemma verify_otp_disconnected (email : string) (otp_input : Py.value) (now : Z) :
  verify_otp email otp_input now None = Ok (false, None).
Proof. reflexivity. Qed.

Lemma verify_otp_connected (email : string) (otp_input : Py.value) (now : Z) (c : Redis.client) :
  verify_otp email otp_input now (Some c) =
  match Redis.lookup c (redis_key email) now with
  | None => Ok (false, Some c)
  | Some stored =>
      if negb (String.eqb stored "")
         && String.eqb (Py.str (Redis.reply c stored)) (Py.str otp_input)
      then Ok (true, Some {| Redis.decode_responses := Redis.decode_responses c;
                             Redis.db := delete (redis_key email) (Redis.db c) |})
      else Ok (false, Some c)
  end.
Proof.
  unfold verify_otp, Redis.get; simpl.
  destruct (Redis.lookup c (redis_key email) now) as [stored|]; [|done].
  rewrite truthy_reply, negb_involutive.
  destruct (String.eqb stored ""); [done|]; simpl.
  by destruct (String.eqb _ _).
Qed.

Lemma holds_codes_lookup (c : Redis.client) (key : string) (now : Z) (stored : string) :
  holds_codes (Some c) → Redis.lookup c key now = Some stored →
  ∃ n : Z, 100000 ≤ n ≤ 999999 ∧ stored = pretty n.
Proof.
  intros Hinv. unfold Redis.lookup.
  destruct (Redis.db c !! key) as [e|] eqn:He; [|done].
  destruct (now <? Redis.expires_at e); [|done]. intros [= <-].
  by eapply Hinv.
Qed.

Lemma holds_codes_sample (decode : bool) : holds_codes (Some (sample_client decode)).
Proof.
  intros c key e [= <-]; simpl. unfold sample_db.
  intros [_ <-]%lookup_singleton_Some. exists 123456. by split; [lia|].
Qed.

(** ** C1 *)

(** C1: [verify_otp(email, submitted_code)] returns true exactly when a code
    is stored under the key of that email and the string form of the stored
    code equals the string form of the submitted one; when it returns true
    the key has been deleted, so that the code is single-use.  Stated over
    the stores that hold six-digit codes ([holds_codes]). *)
Theorem verify_otp_true_iff (email : string) (otp_input : Py.value) (now : Z) (r : redis_global) :
  holds_codes r →
  ∃ (b : bool) (r' : redis_global),
    verify_otp email otp_input now r = Ok (b, r') ∧
    (b = true ↔
       ∃ c stored, r = Some c ∧ Redis.lookup c (redis_key email) now = Some stored ∧
                   Py.str (Redis.reply c stored) = Py.str otp_input) ∧
    (b = true →
       ∃ c c', r = Some c ∧ r' = Some c' ∧
               Redis.db c' = delete (redis_key email) (Redis.db c) ∧
               ∀ t, Redis.lookup c' (redis_key email) t = None).
Proof.
  intros Hinv. destruct r as [c|].
  - rewrite verify_otp_connected.
    destruct (Redis.lookup c (redis_key email) now) as [stored|] eqn:Hl.
    + destruct (holds_codes_lookup _ _ _ _ Hinv Hl) as (n & _ & ->).
      rewrite (string_eqb_false (pretty n) "") by apply pretty_Z_nonempty. simpl.
      destruct (String.eqb_spec (Py.str (Redis.reply c (pretty n))) (Py.str otp_input)) as [Heq|Hne].
      * eexists true, _. split; [done|]. split.
        -- split; [|done]. intros _. by exists c, (pretty n).
        -- intros _. eexists c, _. repeat split.
           intros t. unfold Redis.lookup; simpl. by rewrite lookup_delete_eq.
      * exists false, (Some c). split; [done|]. split; [|done].
        split; [done|]. intros (c0 & stored & [= <-] & Hl' & Heq).
        rewrite Hl in Hl'. injection Hl' as <-. done.
    + exists false, (Some c). split; [done|]. split; [|done].
      split; [done|]. intros (c0 & stored & [= <-] & Hl' & _). congruence.
  - exists false, None. split; [done|]. split; [|done].
    split; [done|]. by intros (c0 & stored & [=] & _).
Qed.

Lemma verify_otp_true_iff_witness :
  ∃ (b : bool) (r' : redis_global),
    verify_otp "a@b.com" (Py.VInt 123456) 10 (Some (sample_client true)) = Ok (b, r') ∧
    (b = true ↔
       ∃ c stored, Some (sample_client true) = Some c ∧
                   Redis.lookup c (redis_key "a@b.com") 10 = Some stored ∧
                   Py.str (Redis.reply c stored) = Py.str (Py.VInt 123456)) ∧
    (b = true →
       ∃ c c', Some (sample_client true) = Some c ∧ r' = Some c' ∧
               Redis.db c' = delete (redis_key "a@b.com") (Redis.db c) ∧
               ∀ t, Redis.lookup c' (redis_key "a@b.com") t = None).
Proof.
  apply (verify_otp_true_iff "a@b.com" (Py.VInt 123456) 10 (Some (sample_client true))).
  apply holds_codes_sample.
Defined.

(** ** [generate_otp], draw by draw *)

(** A bind whose body returns one outcome per draw is a map over the draws. *)
Lemma bind_singleton {A B : Type} (f : A → B) (l : list A) :
  (x ← l; [f x]) = f <$> l.
Proof. induction l as [|a l IH]; [done|]. cbn. by f_equal. Qed.

Lemma omap_fmap_section {A B : Type} (f : A → B) (g : B → option A) (l : list A) :
  (∀ x, g (f x) = Some x) → omap g (f <$> l) = l.
Proof.
  intros Hgf. induction l as [|a l IH]; [done|].
  cbn. rewrite Hgf. by f_equal.
Qed.

(** [timedelta(minutes=m)] is defined for the minutes of at most
    999999999 days either way. *)
Lemma timedelta_minutes_ok (m : Z) :
  -1439999998560 ≤ m < 1440000000000 → timedelta_minutes m = Ok (60 * m).
Proof.
  intros Hm. unfold timedelta_minutes.
  assert (H1 : (-999999999 <=? m / 1440) = true).
  { apply Z.leb_le, Z.div_le_lower_bound; lia. }
  assert (H2 : (m / 1440 <=? 999999999) = true).
  { apply Z.leb_le, Z.lt_succ_r, Z.div_lt_upper_bound; lia. }
  by rewrite H1, H2.
Qed.

Lemma timedelta_minutes_inv (m seconds : Z) :
  timedelta_minutes m = Ok seconds →
  seconds = 60 * m ∧ -1439999998560 ≤ m < 1440000000000.
Proof.
  unfold timedelta_minutes.
  destruct (-999999999 <=? m / 1440) eqn:H1; cbn [andb].
  - destruct (m / 1440 <=? 999999999) eqn:H2.
    + apply Z.leb_le in H1, H2. intros [= <-]. split; [reflexivity|].
      pose proof (Z.mul_div_le m 1440 eq_refl).
      pose proof (Z.mul_succ_div_gt m 1440 eq_refl). lia.
    + by destruct (_ && _).
  - by destruct (_ && _).
Qed.

Lemma elem_of_generate_otp_gen (email : string) (expire_minutes now : Z) (c : Redis.client)
    (out : outcome (Z * redis_global)) :
  out ∈ generate_otp email expire_minutes now (Some c) ↔
  ∃ otp, 100000 ≤ otp ≤ 999999 ∧
    out = obind (timedelta_minutes expire_minutes) (λ expiry,
            obind (Redis.setex (redis_key email) expiry (Py.VInt otp) now c)
                  (λ '(_, c'), Ok (otp, Some c'))).
Proof.
  unfold generate_otp. rewrite bind_singleton, list_elem_of_fmap.
  unfold randint. setoid_rewrite elem_of_seqZ.
  split; intros (otp & H1 & H2); exists otp.
  - split; [lia|exact H1].
  - split; [exact H2|lia].
Qed.

Lemma setex_code (email : string) (expire_minutes now otp : Z) (c : Redis.client) :
  0 < expire_minutes < 1440000000000 →
  obind (timedelta_minutes expire_minutes) (λ expiry,
    obind (Redis.setex (redis_key email) expiry (Py.VInt otp) now c)
          (λ '(_, c'), Ok (otp, Some c')))
  = Ok (otp, Some {| Redis.decode_responses := Redis.decode_responses c;
                     Redis.db := <[redis_key email :=
                                     {| Redis.value := pretty otp;
                                        Redis.expires_at := now + 60 * expire_minutes |}]>
                                   (Redis.db c) |}).
Proof.
  intros Hpos. rewrite timedelta_minutes_ok by lia.
  unfold Redis.setex, Redis.encode, obind.
  destruct (60 * expire_minutes <=? 0) eqn:H; [apply Z.leb_le in H; lia|].
  reflexivity.
Qed.

Lemma generate_otp_connected (email : string) (expire_minutes now : Z) (c : Redis.client) :
  0 < expire_minutes < 1440000000000 →
  generate_otp email expire_minutes now (Some c) =
  (λ otp, Ok (otp, Some {| Redis.decode_responses := Redis.decode_responses c;
                           Redis.db := <[redis_key email :=
                                           {| Redis.value := pretty otp;
                                              Redis.expires_at := now + 60 * expire_minutes |}]>
                                         (Redis.db c) |}))
  <$> seqZ 100000 900000.
Proof.
  intros Hpos. unfold generate_otp. rewrite bind_singleton.
  unfold randint. change (999999 - 100000 + 1) with 900000.
  apply list_fmap_ext. intros _ otp _. by apply setex_code.
Qed.

Lemma elem_of_generate_otp (email : string) (expire_minutes now : Z) (c : Redis.client)
    (out : outcome (Z * redis_global)) :
  0 < expire_minutes < 1440000000000 →
  out ∈ generate_otp email expire_minutes now (Some c) ↔
  ∃ otp, 100000 ≤ otp ≤ 999999 ∧
    out = Ok (otp, Some {| Redis.decode_responses := Redis.decode_responses c;
                           Redis.db := <[redis_key email :=
                                           {| Redis.value := pretty otp;
                                              Redis.expires_at := now + 60 * expire_minutes |}]>
                                         (Redis.db c) |}).
Proof.
  intros Hpos. rewrite elem_of_generate_otp_gen.
  split; intros (otp & H1 & H2); exists otp; (split; [exact H1|]).
  - by rewrite H2, setex_code.
  - by rewrite setex_code.
Qed.

(** An outcome of [generate_otp] that returns a code: the expiry asked for
    was positive and within what a timedelta holds, and the code is stored
    under the key of the email. *)
Lemma generate_otp_ok_inv (email : string) (expire_minutes now otp : Z) (c : Redis.client)
    (r' : redis_global) :
  Ok (otp, r') ∈ generate_otp email expire_minutes now (Some c) →
  0 < expire_minutes ∧ 100000 ≤ otp ≤ 999999 ∧
  r' = Some {| Redis.decode_responses := Redis.decode_responses c;
               Redis.db := <[redis_key email :=
                               {| Redis.value := pretty otp;
                                  Redis.expires_at := now + 60 * expire_minutes |}]>
                             (Redis.db c) |}.
Proof.
  rewrite elem_of_generate_otp_gen. intros (n & Hn & Hout).
  destruct (timedelta_minutes expire_minutes) as [seconds|e] eqn:Htd; cbn [obind] in Hout;
    [|discriminate].
  apply timedelta_minutes_inv in Htd as [-> Hrange].
  unfold Redis.setex, Redis.encode, obind in Hout.
  destruct (60 * expire_minutes <=? 0) eqn:H; [discriminate|].
  apply Z.leb_gt in H. injection Hout as -> ->. split; [lia|done].
Qed.

(** The invariant holds of an empty store, of a missing handle, and is
    kept by both operations. *)
Lemma holds_codes_disconnected : holds_codes None.
Proof. by intros c key e [=]. Qed.

Lemma holds_codes_empty (decode : bool) :
  holds_codes (Some {| Redis.decode_responses := decode; Redis.db := ∅ |}).
Proof. intros c key e [= <-]; simpl. by rewrite lookup_empty. Qed.

Lemma holds_codes_generate_otp (email : string) (expire_minutes now : Z) (r r' : redis_global) (otp : Z) :
  holds_codes r →
  Ok (otp, r') ∈ generate_otp email expire_minutes now r →
  holds_codes r'.
Proof.
  intros Hinv. destruct r as [c|].
  - intros (_ & Hn & ->)%generate_otp_ok_inv.
    intros c' key e [= <-]. cbn [Redis.db].
    destruct (decide (redis_key email = key)) as [<-|Hne].
    + rewrite lookup_insert_eq. intros [= <-]. exists otp. split; [lia|reflexivity].
    + rewrite lookup_insert_ne by done. by apply Hinv.
  - unfold generate_otp. intros H%list_elem_of_singleton. discriminate.
Qed.

Lemma holds_codes_verify_otp (email : string) (otp_input : Py.value) (now : Z)
    (r r' : redis_global) (b : bool) :
  holds_codes r → verify_otp email otp_input now r = Ok (b, r') → holds_codes r'.
Proof.
  intros Hinv. destruct r as [c|]; [|by intros [= _ <-]].
  rewrite verify_otp_connected.
  destruct (Redis.lookup c (redis_key email) now) as [stored|]; [|by intros [= _ <-]].
  destruct (_ && _); [|by intros [= _ <-]].
  intros [= _ <-] c' key e [= <-]; simpl.
  intros [_ He]%lookup_delete_Some. by eapply Hinv.
Qed.

(** ** C2 *)

(** C2: on a connected handle, [generate_otp(email)] (five minutes by
    default) draws its code uniformly from 100000..999999: the 900000
    equally likely outcomes return each code of that range exactly once, so
    every returned code lies in the range.  The key is per email: it is
    the text "otp:" followed by the email, and two emails with the same
    key are the same email.  Each outcome has stored the decimal form of
    the code it returns under that key, to expire 300 seconds after [now],
    in place of whatever the key held; it has left every other key alone,
    and with them the key of every other email. *)
Theorem generate_otp_uniform_stored (email : string) (now : Z) (c : Redis.client) :
  let outs := generate_otp email default_expire_minutes now (Some c) in
  returned_codes outs = seqZ 100000 900000 ∧
  Z.of_nat (List.length outs) = 900000 ∧
  NoDup (returned_codes outs) ∧
  (∀ v : Z, v ∈ returned_codes outs ↔ 100000 ≤ v ≤ 999999) ∧
  redis_key email = "otp:" +:+ email ∧
  (∀ other, redis_key other = redis_key email → other = email) ∧
  (∀ out, out ∈ outs →
     ∃ (otp : Z) (c' : Redis.client),
       out = Ok (otp, Some c') ∧ 100000 ≤ otp ≤ 999999 ∧
       Redis.encode (Py.VInt otp) = Ok (pretty otp) ∧
       Redis.decode_responses c' = Redis.decode_responses c ∧
       Redis.db c' = <["otp:" +:+ email := {| Redis.value := pretty otp;
                                              Redis.expires_at := now + 300 |}]> (Redis.db c) ∧
       (∀ t, Redis.lookup c' ("otp:" +:+ email) t
             = if t <? now + 300 then Some (pretty otp) else None) ∧
       (∀ key, key ≠ "otp:" +:+ email → Redis.db c' !! key = Redis.db c !! key) ∧
       (∀ other, other ≠ email →
          Redis.db c' !! ("otp:" +:+ other) = Redis.db c !! ("otp:" +:+ other) ∧
          ∀ t, Redis.lookup c' ("otp:" +:+ other) t = Redis.lookup c ("otp:" +:+ other) t)).
Proof.
  intros outs.
  assert (Hexp : 0 < default_expire_minutes < 1440000000000) by done.
  assert (Hcodes : returned_codes outs = seqZ 100000 900000).
  { unfold outs. rewrite generate_otp_connected by exact Hexp.
    unfold returned_codes. by apply omap_fmap_section. }
  split; [done|]. split.
  { unfold outs. rewrite generate_otp_connected by exact Hexp.
    rewrite length_fmap, length_seqZ. lia. }
  rewrite Hcodes. split; [apply NoDup_seqZ|]. split.
  { intros v. rewrite elem_of_seqZ. lia. }
  split; [reflexivity|]. split; [intros other; apply redis_key_inj|].
  intros out Hout. unfold outs in Hout.
  apply elem_of_generate_otp in Hout as (otp & Hrange & ->); [|exact Hexp].
  assert (Hother : ∀ other, other ≠ email → "otp:" +:+ email ≠ "otp:" +:+ other).
  { intros other Hne Heq. apply Hne. symmetry. exact (redis_key_inj _ _ Heq). }
  eexists otp, _. split; [done|]. split; [done|]. split; [done|].
  split; [done|]. split; [done|]. split; [|split].
  - intros t. unfold Redis.lookup; simpl.
    change ("otp:" +:+ email) with (redis_key email). by rewrite lookup_insert_eq.
  - intros key Hkey; simpl.
    change ("otp:" +:+ email) with (redis_key email) in Hkey. by rewrite lookup_insert_ne.
  - intros other Hne. specialize (Hother other Hne).
    assert (Hdb : <[redis_key email := {| Redis.value := pretty otp;
                                          Redis.expires_at := now + 60 * default_expire_minutes |}]>
                    (Redis.db c) !! ("otp:" +:+ other)
                  = Redis.db c !! ("otp:" +:+ other)).
    { by rewrite lookup_insert_ne. }
    split; [exact Hdb|]. intros t. unfold Redis.lookup; cbn [Redis.db]. by rewrite Hdb.
Qed.

(** ** Replies that are not decoded *)

Lemma pretty_N_go_not_b (x : N) (s : string) :
  (∀ s', s ≠ String "b" s') → ∀ s', pretty_N_go x s ≠ String "b" s'.
Proof.
  revert s. induction (N.lt_wf_0 x) as [x _ IH]; intros s Hs s'.
  destruct (decide (x = 0)%N) as [->|Hx].
  - rewrite pretty_N_go_0. apply Hs.
  - rewrite pretty_N_go_step by lia.
    apply IH; [apply N.div_lt; lia|].
    intros s''. unfold pretty_N_char. by repeat case_match.
Qed.

Lemma pretty_Z_not_b (n : Z) (s : string) : pretty n ≠ String "b" s.
Proof.
  destruct n as [|p|p]; unfold pretty, pretty_Z; [done| |done].
  unfold pretty, pretty_positive, pretty, pretty_N.
  case_decide; [done|]. by apply pretty_N_go_not_b.
Qed.

(** The string form of a bytes reply is never the string form of an int. *)
Lemma str_bytes_ne_str_int (bytes : string) (n : Z) :
  Py.str (Py.VBytes bytes) ≠ Py.str (Py.VInt n).
Proof. simpl. unfold Py.repr_bytes. intros H. symmetry in H. by apply pretty_Z_not_b in H. Qed.

(** On a handle that does not decode replies no int code verifies. *)
Lemma verify_otp_raw_int (email : string) (n now : Z) (c : Redis.client) :
  Redis.decode_responses c = false →
  verify_otp email (Py.VInt n) now (Some c) = Ok (false, Some c).
Proof.
  intros Hraw. rewrite verify_otp_connected.
  destruct (Redis.lookup c (redis_key email) now) as [stored|]; [|done].
  unfold Redis.reply. rewrite Hraw.
  rewrite (string_eqb_false _ _ (str_bytes_ne_str_int stored n)).
  by rewrite andb_false_r.
Qed.

Lemma lookup_inserted (decode : bool) (data : gmap string Redis.entry) (key bytes : string)
    (expires t : Z) :
  Redis.lookup {| Redis.decode_responses := decode;
                  Redis.db := <[key := {| Redis.value := bytes; Redis.expires_at := expires |}]> data |}
               key t
  = if t <? expires then Some bytes else None.
Proof. unfold Redis.lookup. cbn [Redis.db]. by rewrite lookup_insert_eq. Qed.

Lemma lookup_deleted (decode : bool) (data : gmap string Redis.entry) (key : string) (t : Z) :
  Redis.lookup {| Redis.decode_responses := decode; Redis.db := delete key data |} key t = None.
Proof. unfold Redis.lookup. cbn [Redis.db]. by rewrite lookup_delete_eq. Qed.

(** On a handle that decodes replies, the code just generated verifies
    once, within its five minutes, and not a second time. *)
Lemma otp_roundtrip_decoded (email : string) (c : Redis.client) (t0 t1 t2 : Z)
    (C : Z) (r1 : redis_global) :
  Redis.decode_responses c = true →
  Ok (C, r1) ∈ generate_otp email default_expire_minutes t0 (Some c) →
  t1 < t0 + 300 →
  ∃ r2, verify_otp email (Py.VInt C) t1 r1 = Ok (true, r2) ∧
        verify_otp email (Py.VInt C) t2 r2 = Ok (false, r2).
Proof.
  intros Hdec Hgen Ht.
  apply elem_of_generate_otp in Hgen as (otp & Hrange & [= -> ->]); [|done].
  rewrite verify_otp_connected, lookup_inserted. unfold default_expire_minutes.
  destruct (t1 <? t0 + 60 * 5) eqn:Hlive; [|lia].
  unfold Redis.reply. cbn [Redis.decode_responses]. rewrite Hdec. cbn [Py.str].
  rewrite (string_eqb_false (pretty otp) "") by apply pretty_Z_nonempty.
  rewrite String.eqb_refl. cbn [negb andb].
  eexists. split; [reflexivity|].
  by rewrite verify_otp_connected, lookup_deleted.
Qed.

(** ** C4 *)

(** Every code of the range is an outcome of [generate_otp]. *)
Lemma generate_otp_draw (email : string) (now otp : Z) (c : Redis.client) :
  100000 ≤ otp ≤ 999999 →
  Ok (otp, Some {| Redis.decode_responses := Redis.decode_responses c;
                   Redis.db := <[redis_key email :=
                                   {| Redis.value := pretty otp; Redis.expires_at := now + 300 |}]>
                                 (Redis.db c) |})
  ∈ generate_otp email default_expire_minutes now (Some c).
Proof.
  intros Hrange.
  apply (proj2 (elem_of_generate_otp email default_expire_minutes now c _
                  (conj eq_refl eq_refl))).
  exists otp. split; [exact Hrange|reflexivity].
Qed.

Lemma first_draw_sample :
  Ok (123456, Some (decoding_client (pending "a@b.com" 123456 300)))
  ∈ generate_otp "a@b.com" default_expire_minutes 0 (Some (decoding_client ∅)).
Proof. apply (generate_otp_draw "a@b.com" 0 123456 (decoding_client ∅)). lia. Qed.

Lemma second_draw_sample (otp : Z) :
  100000 ≤ otp ≤ 999999 →
  Ok (otp, Some (decoding_client (pending "a@b.com" otp 310)))
  ∈ generate_otp "a@b.com" default_expire_minutes 10
      (Some (decoding_client (pending "a@b.com" 123456 300))).
Proof.
  intros Hrange.
  replace (decoding_client (pending "a@b.com" otp 310)) with
    {| Redis.decode_responses := true;
       Redis.db := <[redis_key "a@b.com" :=
                       {| Redis.value := pretty otp; Redis.expires_at := 10 + 300 |}]>
                     (pending "a@b.com" 123456 300) |}.
  - by apply (generate_otp_draw "a@b.com" 10 otp (decoding_client (pending "a@b.com" 123456 300))).
  - unfold decoding_client, pending. f_equal; apply insert_insert_eq.
Qed.

(** C4, as amended: if [generate_otp(email)] returns [C1] and then, before
    [C1] is consumed, returns [C2], and the two codes differ, then
    [verify_otp(email, C1)] returns false, whatever the reply mode of the
    handle and whatever the clock readings; the record of [C2] stays in
    place. *)
Theorem regenerated_otp_invalidates_old (email : string) (c : Redis.client) (t0 t1 t2 : Z)
    (C1 C2 : Z) (r1 r2 : redis_global) :
  Ok (C1, r1) ∈ generate_otp email default_expire_minutes t0 (Some c) →
  Ok (C2, r2) ∈ generate_otp email default_expire_minutes t1 r1 →
  C2 ≠ C1 →
  verify_otp email (Py.VInt C1) t2 r2 = Ok (false, r2).
Proof.
  intros H1 H2 Hne.
  apply elem_of_generate_otp in H1 as (otp1 & Hr1 & [= -> ->]); [|done].
  apply elem_of_generate_otp in H2 as (otp2 & Hr2 & [= -> ->]); [|done].
  rewrite verify_otp_connected, lookup_inserted.
  destruct (t2 <? _); [|done].
  unfold Redis.reply. cbn [Redis.decode_responses].
  destruct (Redis.decode_responses c).
  - cbn [Py.str]. rewrite (string_eqb_false (pretty otp2) (pretty otp1)).
    + by rewrite andb_false_r.
    + intros Heq. by apply (inj pretty) in Heq.
  - rewrite (string_eqb_false _ _ (str_bytes_ne_str_int (pretty otp2) otp1)).
    by rewrite andb_false_r.
Qed.

Lemma regenerated_otp_invalidates_old_witness :
  verify_otp "a@b.com" (Py.VInt 123456) 20 (Some (decoding_client (pending "a@b.com" 654321 310)))
  = Ok (false, Some (decoding_client (pending "a@b.com" 654321 310))).
Proof.
  apply (regenerated_otp_invalidates_old "a@b.com" (decoding_client ∅) 0 10 20 123456 654321
           (Some (decoding_client (pending "a@b.com" 123456 300)))).
  - exact first_draw_sample.
  - apply second_draw_sample. lia.
  - lia.
Defined.

(** C4 as stated fails when the second draw repeats the first: the old
    code is then the pending code, and it verifies. *)
Lemma regenerated_same_code_verifies :
  Ok (123456, Some (decoding_client (pending "a@b.com" 123456 300)))
    ∈ generate_otp "a@b.com" default_expire_minutes 0 (Some (decoding_client ∅)) ∧
  Ok (123456, Some (decoding_client (pending "a@b.com" 123456 310)))
    ∈ generate_otp "a@b.com" default_expire_minutes 10
        (Some (decoding_client (pending "a@b.com" 123456 300))) ∧
  verify_otp "a@b.com" (Py.VInt 123456) 20 (Some (decoding_client (pending "a@b.com" 123456 310)))
  = Ok (true, Some (decoding_client ∅)).
Proof.
  split; [exact first_draw_sample|]. split; [apply second_draw_sample; lia|].
  vm_compute. reflexivity.
Qed.

(** ** No pending code, or no handle *)

Lemma lookup_absent_or_expired (c : Redis.client) (key : string) (now : Z) :
  Redis.db c !! key = None ∨
  (∃ e, Redis.db c !! key = Some e ∧ Redis.expires_at e ≤ now) →
  Redis.lookup c key now = None.
Proof.
  unfold Redis.lookup. intros [->|(e & -> & Hexp)]; [done|].
  destruct (now <? Redis.expires_at e) eqn:H; [lia|done].
Qed.

(** On a handle whose commands are answered, [verify_otp] returns false,
    does not raise and leaves the store as it was when the key of the
    email is absent or has expired.  When the global [r] is [None], which
    is what lines 51 and 62 test, [verify_otp] returns false and
    [generate_otp] raises the explicit error, whatever the expiry asked
    for. *)
Theorem otp_fails_closed (email : string) (otp_input : Py.value) (now : Z) :
  (∀ c : Redis.client,
     Redis.db c !! redis_key email = None ∨
     (∃ e, Redis.db c !! redis_key email = Some e ∧ Redis.expires_at e ≤ now) →
     verify_otp email otp_input now (Some c) = Ok (false, Some c)) ∧
  verify_otp email otp_input now None = Ok (false, None) ∧
  (∀ expire_minutes : Z,
     generate_otp email expire_minutes now None
     = [Raise (Exception "Redis client is not connected.")]).
Proof.
  split; [|split; [reflexivity|reflexivity]].
  intros c Hc. rewrite verify_otp_connected.
  by rewrite (lookup_absent_or_expired _ _ _ Hc).
Qed.

(** ** C9 *)

Lemma verify_otp_wrong_guess (email : string) (otp_input : Py.value) (now : Z)
    (c : Redis.client) (stored : string) :
  Redis.lookup c (redis_key email) now = Some stored →
  Py.str (Redis.reply c stored) ≠ Py.str otp_input →
  verify_otp email otp_input now (Some c) = Ok (false, Some c).
Proof.
  intros Hl Hne. rewrite verify_otp_connected, Hl.
  by rewrite (string_eqb_false _ _ Hne), andb_false_r.
Qed.

(** C9: on a connected handle that holds a code for the email, a submitted
    code whose string form differs from that of the stored code makes
    [verify_otp] return false and leaves the handle as it was: the key is
    not deleted and its value and expiry are unchanged.  Hence every one of
    a run of wrong guesses, however long, returns false and the pending
    code is still there after the run, at every instant before its expiry. *)
Theorem wrong_guesses_keep_otp (email : string) (c : Redis.client) (e : Redis.entry)
    (attempts : list (Py.value * Z)) :
  Redis.db c !! redis_key email = Some e →
  Forall (λ a, Py.str (Redis.reply c (Redis.value e)) ≠ Py.str a.1) attempts →
  verify_attempts email attempts (Some c)
    = Ok (replicate (List.length attempts) false, Some c) ∧
  (∀ otp_input now,
     now < Redis.expires_at e →
     Py.str (Redis.reply c (Redis.value e)) ≠ Py.str otp_input →
     verify_otp email otp_input now (Some c) = Ok (false, Some c)) ∧
  (∀ t, t < Redis.expires_at e → Redis.lookup c (redis_key email) t = Some (Redis.value e)).
Proof.
  intros He Hwrong.
  assert (Hlive : ∀ t, t < Redis.expires_at e →
                       Redis.lookup c (redis_key email) t = Some (Redis.value e)).
  { intros t Ht. unfold Redis.lookup. rewrite He.
    destruct (t <? Redis.expires_at e) eqn:H; [done|lia]. }
  split; [|split; [|exact Hlive]].
  - induction Hwrong as [|[g t] rest Hg _ IH]; [reflexivity|].
    cbn [verify_attempts List.length replicate].
    assert (Hv : verify_otp email g t (Some c) = Ok (false, Some c)).
    { destruct (decide (t < Redis.expires_at e)) as [Ht|Ht].
      - by apply (verify_otp_wrong_guess _ _ _ _ (Redis.value e)); [apply Hlive|].
      - rewrite verify_otp_connected.
        rewrite (lookup_absent_or_expired c (redis_key email) t); [done|].
        right. exists e. split; [done|lia]. }
    rewrite Hv. cbn [obind]. rewrite IH. reflexivity.
  - intros otp_input now Hnow Hne.
    by apply (verify_otp_wrong_guess _ _ _ _ (Redis.value e)); [apply Hlive|].
Qed.

Lemma wrong_guesses_keep_otp_witness :
  verify_attempts "a@b.com"
    [(Py.VInt 111111, 10); (Py.VInt 654321, 20); (Py.VStr "12345", 30)]
    (Some (sample_client true))
    = Ok ([false; false; false], Some (sample_client true)) ∧
  (∀ otp_input now,
     now < 300 →
     Py.str (Redis.reply (sample_client true) "123456") ≠ Py.str otp_input →
     verify_otp "a@b.com" otp_input now (Some (sample_client true))
     = Ok (false, Some (sample_client true))) ∧
  (∀ t, t < 300 → Redis.lookup (sample_client true) (redis_key "a@b.com") t = Some "123456").
Proof.
  apply (wrong_guesses_keep_otp "a@b.com" (sample_client true)
           {| Redis.value := "123456"; Redis.expires_at := 300 |}
           [(Py.VInt 111111, 10); (Py.VInt 654321, 20); (Py.VStr "12345", 30)]).
  - reflexivity.
  - repeat constructor; vm_compute; discriminate.
Defined.

(** ** C8 *)

(** C8, as amended: when the password and its confirmation differ, a
    submission of the form makes no call to [verify_otp_and_register] and
    is rejected on the client: with the error "Passwords do not match" if
    the OTP and the password are both filled in, and with the warning
    "Please fill in all fields" otherwise. *)
Theorem mismatched_passwords_make_no_call
    (verify_otp_and_register : string → string → string → bool * string)
    (reg_email otp reg_password confirm_password : string) :
  reg_password ≠ confirm_password →
  let events := register_step2 verify_otp_and_register reg_email otp
                               reg_password confirm_password true in
  existsb is_network_call events = false ∧
  events = if filled otp && filled reg_password
           then [st_error "Passwords do not match"]
           else [st_warning "Please fill in all fields"].
Proof.
  intros Hne events. unfold events, register_step2.
  rewrite (string_eqb_false _ _ Hne).
  by destruct (filled otp && filled reg_password).
Qed.

Lemma mismatched_passwords_make_no_call_witness :
  let events := register_step2 (λ _ _ _, (true, "Registration successful!"))
                               "a@b.com" "123456" "secret" "secrot" true in
  existsb is_network_call events = false ∧
  events = if filled "123456" && filled "secret"
           then [st_error "Passwords do not match"]
           else [st_warning "Please fill in all fields"].
Proof.
  apply (mismatched_passwords_make_no_call (λ _ _ _, (true, "Registration successful!"))
           "a@b.com" "123456" "secret" "secrot").
  discriminate.
Defined.

(** C8 as stated fails when the OTP field is empty: the passwords differ,
    no call is made, and what is shown is the warning, not an error. *)
Lemma mismatch_with_empty_otp_shows_no_error :
  "secret" ≠ "secrot" ∧
  register_step2 (λ _ _ _, (true, "Registration successful!"))
                 "a@b.com" "" "secret" "secrot" true
  = [st_warning "Please fill in all fields"] ∧
  existsb is_error
    (register_step2 (λ _ _ _, (true, "Registration successful!"))
                    "a@b.com" "" "secret" "secrot" true) = false.
Proof. split; [discriminate|]. split; reflexivity. Qed.

(** ** C10 *)

Lemma filled_true (s : string) : filled s = true ↔ s ≠ "".
Proof.
  unfold filled. destruct (String.eqb_spec s ""); split; intros; simplify_eq/=; done.
Qed.

Lemma number_falsy (a : number) :
  number_truthy a = false ↔ a = NInt 0 ∨ ∃ s, a = NFloat (S754_zero s).
Proof.
  destruct a as [n|f]; cbn.
  - destruct (Z.eqb_spec n 0) as [->|Hn]; cbn; split; intros H; try done.
    + by left.
    + destruct H as [[= ?]|[s [=]]]. done.
  - destruct f; cbn; split; intros H; try done; try (right; by eexists);
      destruct H as [[=]|[s' [=]]].
Qed.

(** The requests [update_expense] sends: one, carrying the payload, unless
    building the payload raised. *)
Lemma update_expense_requests (API_BASE_URL : string) (token : option string)
    (post : request → outcome response) (expense_id : Z) (category : option string)
    (amount : option number) (expense_date : option date) :
  (update_expense API_BASE_URL token post expense_id category amount expense_date).2
  = match update_expense_data category amount expense_date with
    | Ok data => [{| url := API_BASE_URL +:+ "/update_expense/" +:+ pretty expense_id;
                     body := data; headers := get_headers token |}]
    | Raise _ => []
    end.
Proof.
  unfold update_expense.
  destruct (update_expense_data category amount expense_date) as [data|e]; [|done].
  destruct (post _) as [resp|e]; [|done].
  destruct (status_code resp =? 200); [done|].
  by destruct (response_json resp).
Qed.

Lemma update_expense_data_fields (category : option string) (amount : option number)
    (expense_date : option date) (data : gmap string json) :
  update_expense_data category amount expense_date = Ok data →
  data !! "category" = match category with
                       | Some c => if filled c then Some (JString c) else None
                       | None => None
                       end ∧
  data !! "amount" = match amount with
                     | Some a => if number_truthy a
                                 then match py_float a with
                                      | Ok f => Some (JNumber f)
                                      | Raise _ => None
                                      end
                                 else None
                     | None => None
                     end ∧
  data !! "date" = match expense_date with
                   | Some d => Some (JString (isoformat d))
                   | None => None
                   end.
Proof.
  unfold update_expense_data.
  destruct category as [c|]; [destruct (filled c)|];
    (destruct amount as [a|]; [destruct (number_truthy a); [destruct (py_float a) as [f|]|]|]);
    (destruct expense_date as [d|]); cbn [obind]; intros [= <-]; repeat split;
    by simplify_map_eq.
Qed.

(** [float(n)] of a nonzero int is not a zero: rounding to binary64 keeps
    the leading bit. *)
Lemma shr_1_m (mrs : shr_record) : 0 ≤ shr_m mrs → shr_m (shr_1 mrs) = shr_m mrs / 2.
Proof.
  destruct mrs as [m r s]; cbn [shr_m]. intros Hm.
  destruct m as [|p|p]; [reflexivity| |lia].
  destruct p as [p|p|]; cbn [shr_1 shr_m].
  - rewrite Pos2Z.inj_xI. apply (Z.div_unique _ _ _ 1); lia.
  - rewrite Pos2Z.inj_xO. apply (Z.div_unique _ _ _ 0); lia.
  - reflexivity.
Qed.

Lemma iter_shr_1_m (p : positive) (mrs : shr_record) :
  0 ≤ shr_m mrs → shr_m (iter_pos shr_1 p mrs) = shr_m mrs / 2 ^ Zpos p.
Proof.
  revert mrs. induction p as [p IH|p IH|]; intros mrs Hm; cbn [iter_pos].
  - assert (H1 : 0 ≤ shr_m (shr_1 mrs)).
    { rewrite shr_1_m by done. apply Z.div_pos; lia. }
    assert (H2 : 0 ≤ shr_m (iter_pos shr_1 p (shr_1 mrs))).
    { rewrite IH by done. apply Z.div_pos; lia. }
    rewrite IH, IH, shr_1_m by done.
    rewrite !Z.div_div by lia. f_equal.
    assert (Z.pos p~1 = 1 + Z.pos p + Z.pos p) as -> by lia.
    rewrite !Z.pow_add_r, Z.pow_1_r by lia. lia.
  - assert (H2 : 0 ≤ shr_m (iter_pos shr_1 p mrs)).
    { rewrite IH by done. apply Z.div_pos; lia. }
    rewrite IH, IH by done.
    rewrite !Z.div_div by lia. f_equal.
    assert (Z.pos p~0 = Z.pos p + Z.pos p) as -> by lia.
    by rewrite Z.pow_add_r by lia.
  - rewrite shr_1_m by done. by rewrite Z.pow_1_r.
Qed.

Lemma digits2_pos_lower (p : positive) : 2 ^ (Zpos (digits2_pos p) - 1) ≤ Zpos p.
Proof.
  induction p as [p IH|p IH|]; cbn [digits2_pos].
  - rewrite Pos2Z.inj_succ. replace (Z.succ (Z.pos (digits2_pos p)) - 1)
      with (Z.succ (Z.pos (digits2_pos p) - 1)) by lia.
    rewrite Z.pow_succ_r by lia. lia.
  - rewrite Pos2Z.inj_succ. replace (Z.succ (Z.pos (digits2_pos p)) - 1)
      with (Z.succ (Z.pos (digits2_pos p) - 1)) by lia.
    rewrite Z.pow_succ_r by lia. lia.
  - reflexivity.
Qed.

Lemma round_nearest_even_ge (m : Z) (l : location) : m ≤ round_nearest_even m l.
Proof.
  destruct l as [|[]]; cbn [round_nearest_even]; try lia.
  destruct (Z.even m); lia.
Qed.

Lemma shr_fexp_pos (m e : Z) (l : location) :
  0 < m → -1074 ≤ e →
  0 < shr_m (shr_fexp 53 1024 m e l).1 ∧ -1074 ≤ (shr_fexp 53 1024 m e l).2.
Proof.
  intros Hm He. unfold shr_fexp, shr.
  assert (Hrec : shr_m (shr_record_of_loc m l) = m) by (by destruct l as [|[]]).
  destruct m as [|p|p]; [lia| |lia]. cbn [Zdigits2].
  destruct (fexp 53 1024 (Z.pos (digits2_pos p) + e) - e) as [|n|n] eqn:Hn; cbn [fst snd].
  - rewrite Hrec. lia.
  - split; [|lia]. rewrite iter_shr_1_m by (rewrite Hrec; lia). rewrite Hrec.
    apply Z.div_str_pos. split; [lia|].
    etrans; [|apply digits2_pos_lower].
    apply Z.pow_le_mono_r; [lia|].
    unfold fexp, emin in Hn. lia.
  - rewrite Hrec. lia.
Qed.

Lemma binary_round_nonzero (sx s : bool) (mx : positive) :
  binary_round 53 1024 sx mx 0 ≠ S754_zero s.
Proof.
  unfold binary_round.
  destruct (shl_align mx 0 (fexp 53 1024 (Z.pos (digits2_pos mx) + 0))) as [mz ez] eqn:Hal.
  assert (Hez : -1074 ≤ ez).
  { unfold shl_align in Hal.
    destruct (fexp 53 1024 (Z.pos (digits2_pos mx) + 0) - 0) eqn:Hd;
      injection Hal as <- <-; unfold fexp, emin in *; lia. }
  unfold binary_round_aux.
  pose proof (shr_fexp_pos (Z.pos mz) ez loc_Exact eq_refl Hez) as [H1 H1'].
  destruct (shr_fexp 53 1024 (Z.pos mz) ez loc_Exact) as [mrs1 e1]. cbn [fst snd] in H1, H1'.
  pose proof (round_nearest_even_ge (shr_m mrs1) (loc_of_shr_record mrs1)) as Hr.
  assert (Hpos : 0 < round_nearest_even (shr_m mrs1) (loc_of_shr_record mrs1)) by lia.
  pose proof (shr_fexp_pos _ e1 loc_Exact Hpos H1') as [H2 _].
  destruct (shr_fexp 53 1024 _ e1 loc_Exact) as [mrs2 e2]. cbn [fst snd] in H2.
  destruct (shr_m mrs2); [lia| |lia].
  by destruct (_ <=? _).
Qed.

Lemma py_float_nonzero (a : number) (f : spec_float) (s : bool) :
  number_truthy a = true → py_float a = Ok f → f ≠ S754_zero s.
Proof.
  destruct a as [n|g]; cbn [number_truthy py_float].
  - intros Hn. destruct n as [|p|p]; [done| |]; cbn [binary_normalize].
    + pose proof (binary_round_nonzero false s p) as Hnz.
      destruct (binary_round 53 1024 false p 0); intros [= <-]; done.
    + pose proof (binary_round_nonzero true s p) as Hnz.
      destruct (binary_round 53 1024 true p 0); intros [= <-]; done.
  - intros Hg [= <-]. by destruct g.
Qed.

(** C10: whatever the expense id, a request sent by [update_expense]
    carries no "category" when the category is [None] or the empty string,
    no "amount" when the amount is [None] or zero (the int 0, or the float
    0.0 of either sign), and no "date" when the date is [None]; the other
    arguments are sent, the amount as [float(amount)].  So the amount
    carried by a request is never zero. *)
Theorem update_expense_omits_falsy (API_BASE_URL : string) (token : option string)
    (post : request → outcome response) (expense_id : Z) (category : option string)
    (amount : option number) (expense_date : option date) :
  Forall (λ req,
    (category = None ∨ category = Some "" → body req !! "category" = None) ∧
    (amount = None ∨ amount = Some (NInt 0) ∨ (∃ s, amount = Some (NFloat (S754_zero s))) →
       body req !! "amount" = None) ∧
    (expense_date = None → body req !! "date" = None) ∧
    (∀ c, category = Some c → c ≠ "" → body req !! "category" = Some (JString c)) ∧
    (∀ a, amount = Some a → number_truthy a = true →
       ∃ f, py_float a = Ok f ∧ body req !! "amount" = Some (JNumber f)) ∧
    (∀ d, expense_date = Some d → body req !! "date" = Some (JString (isoformat d))) ∧
    (∀ s, body req !! "amount" ≠ Some (JNumber (S754_zero s))))
  (update_expense API_BASE_URL token post expense_id category amount expense_date).2.
Proof.
  rewrite update_expense_requests.
  destruct (update_expense_data category amount expense_date) as [data|e] eqn:Hdata;
    [|constructor].
  apply Forall_singleton. cbn [body].
  destruct (update_expense_data_fields _ _ _ _ Hdata) as (Hc & Ha & Hd).
  repeat split.
  - intros [->| ->]; by rewrite Hc.
  - intros [->|[->|[s ->]]]; by rewrite Ha.
  - intros ->. by rewrite Hd.
  - intros c -> Hne. rewrite Hc. by rewrite (proj2 (filled_true c) Hne).
  - intros a -> Htruthy. rewrite Ha, Htruthy.
    destruct (py_float a) as [f|e] eqn:Hf; [by exists f|].
    unfold update_expense_data in Hdata. rewrite Htruthy, Hf in Hdata.
    by destruct category as [c|]; [destruct (filled c)|].
  - intros d ->. by rewrite Hd.
  - intros s. rewrite Ha. destruct amount as [a|]; [|done].
    destruct (number_truthy a) eqn:Htruthy; [|done].
    destruct (py_float a) as [f|e] eqn:Hf; [|done].
    intros [= ->]. by eapply py_float_nonzero.
Qed.

(** ** Runs on concrete inputs *)

(** A pending code verifies once on a handle that decodes replies. *)
Example verify_sample_decoded :
  verify_otp "a@b.com" (Py.VInt 123456) 10 (Some (sample_client true))
  = Ok (true, Some (decoding_client ∅)) ∧
  verify_otp "a@b.com" (Py.VInt 123456) 11 (Some (decoding_client ∅))
  = Ok (false, Some (decoding_client ∅)).
Proof. split; vm_compute; reflexivity. Qed.

(** An expired code does not verify. *)
Example verify_sample_expired :
  verify_otp "a@b.com" (Py.VInt 123456) 300 (Some (sample_client true))
  = Ok (false, Some (sample_client true)).
Proof. vm_compute. reflexivity. Qed.

(** Matching passwords do reach the network. *)
Example register_step2_calls :
  register_step2 (λ _ _ _, (true, "Registration successful!"))
                 "a@b.com" "123456" "secret" "secret" true
  = [call_verify_otp_and_register "a@b.com" "123456" "secret";
     st_success "Registration successful!";
     st_info "Please login with your credentials";
     del_reg_email].
Proof. reflexivity. Qed.

(** An update of the category alone, with the amount given as 0.0. *)
Example update_expense_zero_amount :
  update_expense "http://localhost:8000" (Some "tok")
    (λ _, Ok {| status_code := 200; response_json := Ok ∅ |})
    7 (Some "Food") (Some (NFloat (S754_zero false))) None
  = ((true, "Expense updated successfully!"),
     [{| url := "http://localhost:8000/update_expense/7";
         body := {[ "category" := JString "Food" ]};
         headers := <["Authorization" := "Bearer tok"]>
                      {[ "Content-Type" := "application/json" ]} |}]).
Proof. vm_compute. reflexivity. Qed.

(** An update of the amount to 12 and of the date. *)
Example update_expense_amount_date :
  (update_expense "http://localhost:8000" None
     (λ _, Ok {| status_code := 404; response_json := Ok {[ "detail" := "Expense not found" ]} |})
     7 None (Some (NInt 12)) (Some {| year := 2024; month := 3; day := 7 |}))
  = ((false, "Expense not found"),
     [{| url := "http://localhost:8000/update_expense/7";
         body := <["date" := JString "2024-03-07"]>
                   {[ "amount" := JNumber (S754_finite false 6755399441055744 (-49)) ]};
         headers := {[ "Content-Type" := "application/json" ]} |}]).
Proof. vm_compute. reflexivity. Qed.

(** * Further properties of the code *)

(** ** The OTP records of different emails *)

Lemma verify_otp_ok_inv (email : string) (otp_input : Py.value) (now : Z) (b : bool)
    (c : Redis.client) (r' : redis_global) :
  verify_otp email otp_input now (Some c) = Ok (b, r') →
  r' = Some c ∨
  r' = Some {| Redis.decode_responses := Redis.decode_responses c;
               Redis.db := delete (redis_key email) (Redis.db c) |}.
Proof.
  rewrite verify_otp_connected.
  destruct (Redis.lookup c (redis_key email) now) as [stored|]; [|intros [= _ <-]; by left].
  destruct (_ && _); intros [= _ <-]; [by right|by left].
Qed.

(** Neither operation on one email touches the record of another email:
    its stored value and its expiry stay what they were. *)
Theorem otp_other_email_untouched (email other : string) :
  email ≠ other →
  (∀ (expire_minutes now otp : Z) (c : Redis.client) (r' : redis_global),
     Ok (otp, r') ∈ generate_otp email expire_minutes now (Some c) →
     ∃ c', r' = Some c' ∧ Redis.db c' !! redis_key other = Redis.db c !! redis_key other) ∧
  (∀ (otp_input : Py.value) (now : Z) (b : bool) (c : Redis.client) (r' : redis_global),
     verify_otp email otp_input now (Some c) = Ok (b, r') →
     ∃ c', r' = Some c' ∧ Redis.db c' !! redis_key other = Redis.db c !! redis_key other).
Proof.
  intros Hne.
  assert (Hkey : redis_key email ≠ redis_key other).
  { intros H. by apply redis_key_inj in H. }
  split.
  - intros m now otp c r' (_ & _ & ->)%generate_otp_ok_inv.
    eexists. split; [reflexivity|]. cbn [Redis.db]. by rewrite lookup_insert_ne.
  - intros x now b c r' [-> | ->]%verify_otp_ok_inv.
    + by exists c.
    + eexists. split; [reflexivity|]. cbn [Redis.db]. by rewrite lookup_delete_ne.
Qed.

Lemma otp_other_email_untouched_witness :
  (∀ (expire_minutes now otp : Z) (c : Redis.client) (r' : redis_global),
     Ok (otp, r') ∈ generate_otp "a@b.com" expire_minutes now (Some c) →
     ∃ c', r' = Some c' ∧
           Redis.db c' !! redis_key "c@d.com" = Redis.db c !! redis_key "c@d.com") ∧
  (∀ (otp_input : Py.value) (now : Z) (b : bool) (c : Redis.client) (r' : redis_global),
     verify_otp "a@b.com" otp_input now (Some c) = Ok (b, r') →
     ∃ c', r' = Some c' ∧
           Redis.db c' !! redis_key "c@d.com" = Redis.db c !! redis_key "c@d.com").
Proof. apply (otp_other_email_untouched "a@b.com" "c@d.com"). discriminate. Defined.

(** ** Which submission verifies, and when *)

(** On a handle that decodes replies, after [generate_otp(email, m)] has
    returned [C] at instant [t0], a submission verifies exactly when its
    string form is the decimal form of [C] and it is presented before
    [t0 + 60 m]; among the integers that is [C] alone.  Once a submission
    has verified, no submission verifies any more. *)
Theorem generated_code_verifies_in_lifetime (email : string) (expire_minutes t0 t : Z)
    (c : Redis.client) (C : Z) (otp_input : Py.value) (r1 : redis_global) :
  Redis.decode_responses c = true →
  Ok (C, r1) ∈ generate_otp email expire_minutes t0 (Some c) →
  ∃ (b : bool) (r2 : redis_global),
    verify_otp email otp_input t r1 = Ok (b, r2) ∧
    (b = true ↔ Py.str otp_input = pretty C ∧ t < t0 + 60 * expire_minutes) ∧
    (∀ n : Z, otp_input = Py.VInt n → (b = true ↔ n = C ∧ t < t0 + 60 * expire_minutes)) ∧
    (b = true → ∀ x t', verify_otp email x t' r2 = Ok (false, r2)).
Proof.
  intros Hdec (Hpos & HC & ->)%generate_otp_ok_inv.
  rewrite verify_otp_connected, lookup_inserted.
  destruct (t <? t0 + 60 * expire_minutes) eqn:Hlive.
  - unfold Redis.reply. cbn [Redis.decode_responses]. rewrite Hdec. cbn [Py.str].
    rewrite (string_eqb_false (pretty C) "") by apply pretty_Z_nonempty.
    cbn [negb andb].
    destruct (String.eqb_spec (pretty C) (Py.str otp_input)) as [Heq|Hneq].
    + apply Z.ltb_lt in Hlive.
      eexists true, _. split; [reflexivity|]. split; [by split; [intros _; split|]|]. split.
      * intros n ->. cbn [Py.str] in Heq. apply (inj pretty) in Heq as <-.
        by split; [intros _; split|].
      * intros _ x t'. by rewrite verify_otp_connected, lookup_deleted.
    + eexists false, _. split; [reflexivity|]. split; [|split; [|done]].
      * split; [done|]. intros [Heq _]. congruence.
      * intros n ->. split; [done|]. intros [-> _]. done.
  - eexists false, _. split; [reflexivity|]. split; [|split; [|done]].
    + split; [done|]. intros [_ Ht]. lia.
    + intros n _. split; [done|]. intros [_ Ht]. lia.
Qed.

Lemma generated_code_verifies_in_lifetime_witness :
  ∃ (b : bool) (r2 : redis_global),
    verify_otp "a@b.com" (Py.VStr "123456") 299
               (Some (decoding_client (pending "a@b.com" 123456 300))) = Ok (b, r2) ∧
    (b = true ↔ Py.str (Py.VStr "123456") = pretty 123456
                ∧ 299 < 0 + 60 * default_expire_minutes) ∧
    (∀ n : Z, Py.VStr "123456" = Py.VInt n →
              (b = true ↔ n = 123456 ∧ 299 < 0 + 60 * default_expire_minutes)) ∧
    (b = true → ∀ x t', verify_otp "a@b.com" x t' r2 = Ok (false, r2)).
Proof.
  apply (generated_code_verifies_in_lifetime "a@b.com" default_expire_minutes 0 299
           (decoding_client ∅) 123456 (Py.VStr "123456")).
  - reflexivity.
  - exact first_draw_sample.
Defined.

(** A code typed with a leading space, or one past its five minutes, is
    refused; the same digits as text are accepted. *)
Example verify_text_submissions :
  let r := Some (decoding_client (pending "a@b.com" 123456 300)) in
  verify_otp "a@b.com" (Py.VStr " 123456") 10 r = Ok (false, r) ∧
  verify_otp "a@b.com" (Py.VStr "123456") 300 r = Ok (false, r) ∧
  verify_otp "a@b.com" (Py.VStr "123456") 10 r = Ok (true, Some (decoding_client ∅)).
Proof. repeat split; vm_compute; reflexivity. Qed.

(** ** A refused expiry *)

(** With an expiry of zero or fewer minutes no draw of [generate_otp]
    returns a code: each of the 900000 draws ends in an exception, and so
    stores nothing.  Down to the minutes of -999999999 days the exception
    is the store's refusal of the expire time, a [ResponseError]; below,
    it is the [OverflowError] of [timedelta].  The wording of either
    message is left open. *)
Theorem generate_otp_rejects_nonpositive_expiry (email : string) (expire_minutes now : Z)
    (c : Redis.client) :
  expire_minutes ≤ 0 →
  Forall (λ out, ∃ msg, out = Raise (if -1439999998560 <=? expire_minutes
                                     then ResponseError msg else OverflowError msg))
         (generate_otp email expire_minutes now (Some c)) ∧
  returned_codes (generate_otp email expire_minutes now (Some c)) = [] ∧
  Z.of_nat (List.length (generate_otp email expire_minutes now (Some c))) = 900000.
Proof.
  intros Hm.
  assert (Heq : ∃ msg, generate_otp email expire_minutes now (Some c)
                = (λ _, Raise (if -1439999998560 <=? expire_minutes
                               then ResponseError msg else OverflowError msg))
                  <$> seqZ 100000 900000).
  { unfold generate_otp. rewrite bind_singleton. unfold randint.
    change (999999 - 100000 + 1) with 900000.
    destruct (Z.leb_spec (-1439999998560) expire_minutes) as [Hlo|Hlo].
    - eexists. apply list_fmap_ext. intros _ otp _.
      rewrite timedelta_minutes_ok by lia.
      unfold Redis.setex, Redis.encode, obind.
      destruct (60 * expire_minutes <=? 0) eqn:H; [reflexivity|].
      apply Z.leb_gt in H. lia.
    - assert (H1 : (-999999999 <=? expire_minutes / 1440) = false).
      { apply Z.leb_gt, Z.div_lt_upper_bound; lia. }
      unfold timedelta_minutes. rewrite H1. cbn [andb obind].
      destruct ((-2147483648 <=? expire_minutes / 1440)
                && (expire_minutes / 1440 <=? 2147483647));
        eexists; apply list_fmap_ext; intros _ otp _; reflexivity. }
  destruct Heq as [msg Heq]. rewrite Heq. split; [|split].
  - apply Forall_fmap, Forall_true. intros x. by exists msg.
  - unfold returned_codes. generalize (seqZ 100000 900000). intros l.
    induction l as [|x l IH]; [reflexivity|]. cbn. exact IH.
  - rewrite length_fmap, length_seqZ. lia.
Qed.

Lemma generate_otp_rejects_nonpositive_expiry_witness :
  Forall (λ out, ∃ msg, out = Raise (if -1439999998560 <=? 0
                                     then ResponseError msg else OverflowError msg))
         (generate_otp "a@b.com" 0 10 (Some (sample_client true))) ∧
  returned_codes (generate_otp "a@b.com" 0 10 (Some (sample_client true))) = [] ∧
  Z.of_nat (List.length (generate_otp "a@b.com" 0 10 (Some (sample_client true)))) = 900000.
Proof. apply (generate_otp_rejects_nonpositive_expiry "a@b.com" 0 10 (sample_client true)). lia. Defined.

(** ** Runs of the two operations *)

Lemma otp_step_invariant (r r' : redis_global) :
  otp_step r r' → holds_codes r → holds_codes r' ∧ reply_mode r' = reply_mode r.
Proof.
  intros Hstep Hinv. destruct Hstep as [email m now otp r r' Hgen|email x now b r r' Hver].
  - split; [by eapply holds_codes_generate_otp|].
    destruct r as [c|].
    + by apply generate_otp_ok_inv in Hgen as (_ & _ & ->).
    + unfold generate_otp in Hgen. apply list_elem_of_singleton in Hgen. discriminate.
  - split; [by eapply holds_codes_verify_otp|].
    destruct r as [c|].
    + by apply verify_otp_ok_inv in Hver as [-> | ->].
    + by injection Hver as _ <-.
Qed.

(** Whatever sequence of [generate_otp] and [verify_otp] calls is made,
    with whatever emails, submissions, draws and clock readings, a store
    that held only six-digit codes still holds only six-digit codes, and
    the handle keeps its reply mode (a missing handle stays missing). *)
Theorem otp_runs_keep_invariant (r r' : redis_global) :
  rtc otp_step r r' → holds_codes r →
  holds_codes r' ∧ reply_mode r' = reply_mode r.
Proof.
  induction 1 as [r|r r1 r2 Hstep _ IH]; [done|].
  intros Hinv. destruct (otp_step_invariant _ _ Hstep Hinv) as [Hinv1 Hmode1].
  destruct (IH Hinv1) as [Hinv2 Hmode2]. split; [done|congruence].
Qed.

Lemma otp_runs_keep_invariant_witness :
  holds_codes (Some (decoding_client (pending "a@b.com" 654321 310))) ∧
  reply_mode (Some (decoding_client (pending "a@b.com" 654321 310)))
  = reply_mode (Some (decoding_client ∅)).
Proof.
  apply (otp_runs_keep_invariant (Some (decoding_client ∅))).
  - eapply rtc_l; [exact (step_generate _ _ _ _ _ _ first_draw_sample)|].
    apply rtc_once.
    exact (step_generate _ _ _ _ _ _ (second_draw_sample 654321 ltac:(lia))).
  - exact (holds_codes_empty true).
Defined.

(** ** Logging in *)

(** [login] sends one request, to /token, with the credentials as form
    data.  It reports success only when the server answered 200 with an
    [access_token], and then the session holds that token and the email;
    whenever it reports failure the session is left exactly as it was. *)
Theorem login_session_atomic (API_BASE_URL : string) (post : form_request → outcome response)
    (email password : string) (s : SessionState.t) :
  let out := login API_BASE_URL post email password s in
  let success := out.1.1.1 in
  (∃ req, out.2 = [req] ∧ form_url req = API_BASE_URL +:+ "/token" ∧
          form_data req !! "username" = Some email ∧
          form_data req !! "password" = Some password ∧
          (success = true →
             ∃ resp result access_token,
               post req = Ok resp ∧ status_code resp = 200 ∧
               response_json resp = Ok result ∧
               result !! "access_token" = Some access_token ∧
               out.1.2 = {| SessionState.token := Some access_token;
                            SessionState.user_email := Some email;
                            SessionState.chat_history := SessionState.chat_history s |})) ∧
  (success = false → out.1.2 = s).
Proof.
  cbv zeta. unfold login.
  set (req := {| form_url := _; form_data := _; form_headers := _ |}).
  split.
  - exists req.
    assert (Huser : form_data req !! "username" = Some email) by (by simplify_map_eq).
    assert (Hpass : form_data req !! "password" = Some password) by (by simplify_map_eq).
    destruct (post req) as [resp|e] eqn:Hpost; cbn.
    + destruct (Z.eqb_spec (status_code resp) 200) as [Hst|Hst]; cbn.
      * destruct (response_json resp) as [result|e] eqn:Hjson; cbn.
        -- destruct (result !! "access_token") as [tok|] eqn:Htok; cbn.
           ++ repeat split; try done. intros _. by exists resp, result, tok.
           ++ by repeat split.
        -- by repeat split.
      * destruct (response_json resp); cbn; by repeat split.
    + by repeat split.
  - destruct (post req) as [resp|e]; cbn; [|done].
    destruct (status_code resp =? 200); cbn.
    + destruct (response_json resp) as [result|e]; cbn; [|done].
      by destruct (result !! "access_token").
    + by destruct (response_json resp).
Qed.

(** The login form reaches the network only when it is submitted with both
    fields filled in, and the session it leaves is either the session it
    found or one logged in as the email entered. *)
Theorem login_form_guards (API_BASE_URL : string) (post : form_request → outcome response)
    (email password : string) (submit : bool) (s : SessionState.t) :
  let out := login_form API_BASE_URL post email password submit s in
  (out.2 ≠ [] → submit = true ∧ email ≠ "" ∧ password ≠ "") ∧
  (out.1.2 = s ∨
   ∃ access_token,
     out.1.2 = {| SessionState.token := Some access_token;
                  SessionState.user_email := Some email;
                  SessionState.chat_history := SessionState.chat_history s |} ∧
     out.1.1 = [show (st_success "Login successful!"); st_rerun]).
Proof.
  cbv zeta. unfold login_form.
  destruct submit; [|split; [done|by left]].
  destruct (filled email) eqn:He; [|split; [done|by left]].
  destruct (filled password) eqn:Hp; [|split; [done|by left]].
  cbn [andb].
  apply filled_true in He. apply filled_true in Hp.
  split.
  - by destruct (login _ _ _ _ _) as [[[[] ?] ?] ?].
  - unfold login.
    destruct (post _) as [resp|e]; [|by left].
    destruct (status_code resp =? 200).
    + destruct (response_json resp) as [result|e]; [|by left].
      destruct (result !! "access_token") as [tok|]; [|by left].
      right. by exists tok.
    + destruct (response_json resp); by left.
Qed.

(** ** Adding an expense *)

Lemma add_expense_requests (API_BASE_URL : string) (token : option string)
    (post : api_request → outcome response)
    (category : string) (amount : number) (amount_type : string) (expense_date : option date) :
  (add_expense API_BASE_URL token post category amount amount_type expense_date).2
  = match py_float amount with
    | Ok f =>
        [{| api_url := API_BASE_URL +:+ "/addexpense";
            api_json :=
              <["date" := match expense_date with
                          | Some d => JText (isoformat d)
                          | None => JNull
                          end]>
              (<["amount_type" := JText amount_type]>
              (<["amount" := JNum (NFloat f)]>
              {[ "category" := JText category ]}));
            api_headers := get_headers token |}]
    | Raise _ => []
    end.
Proof.
  unfold add_expense. destruct (py_float amount) as [f|e]; [|done].
  destruct (post _) as [resp|e]; [|done].
  destruct (status_code resp =? 200); [done|].
  by destruct (response_json resp).
Qed.

(** The add form sends a request only when it is submitted with a category
    that is not empty and an amount that is not zero, so an expense of
    amount 0 cannot be added.  It sends at most one request, and that
    request carries exactly the four fields category, amount (as a float),
    amount_type and date, the date in ISO form or null. *)
Theorem add_expense_form_requests (API_BASE_URL : string) (token : option string)
    (post : api_request → outcome response)
    (category : string) (amount : number) (amount_type : string) (expense_date : option date)
    (submit : bool) :
  let sent := (add_expense_form API_BASE_URL token post category amount amount_type
                                expense_date submit).2 in
  (List.length sent ≤ 1)%nat ∧
  Forall (λ req,
    submit = true ∧ category ≠ "" ∧ number_truthy amount = true ∧
    api_url req = API_BASE_URL +:+ "/addexpense" ∧
    dom (api_json req) = ({[ "category"; "amount"; "amount_type"; "date" ]} : gset string) ∧
    api_json req !! "category" = Some (JText category) ∧
    (∃ f, py_float amount = Ok f ∧ api_json req !! "amount" = Some (JNum (NFloat f))) ∧
    api_json req !! "amount_type" = Some (JText amount_type) ∧
    api_json req !! "date" = Some (match expense_date with
                                   | Some d => JText (isoformat d)
                                   | None => JNull
                                   end)) sent.
Proof.
  cbv zeta. unfold add_expense_form.
  destruct submit; [|by split; [cbn; lia|constructor]].
  destruct (filled category) eqn:Hc; [|by split; [cbn; lia|constructor]].
  destruct (number_truthy amount) eqn:Ha; [|by split; [cbn; lia|constructor]].
  cbn [andb]. apply filled_true in Hc.
  pose proof (add_expense_requests API_BASE_URL token post category amount amount_type
                expense_date) as Hsent.
  destruct (add_expense _ _ _ _ _ _ _) as [[success message] sent]. cbn [snd] in Hsent.
  assert (Hout : (if success then ([show (st_success message); st_rerun], sent)
                  else ([show (st_error message)], sent)).2 = sent) by (by destruct success).
  rewrite Hout, Hsent. clear Hout Hsent.
  destruct (py_float amount) as [f|e] eqn:Hf; [|by split; [cbn; lia|constructor]].
  split; [cbn; lia|]. apply Forall_singleton. cbn [api_url api_json].
  split_and!; try done; try (by simplify_map_eq).
  exists f. split; [done|]. by simplify_map_eq.
Qed.

(** ** Editing an expense *)

Lemma number_truthy_float_zero (f : spec_float) :
  number_truthy (NFloat f) = false ↔ ∃ s, f = S754_zero s.
Proof.
  rewrite number_falsy. split.
  - intros [[=]|[s [= ->]]]. by exists s.
  - intros [s ->]. right. by exists s.
Qed.

(** The "Update" button always sends one request, and the request always
    carries the date of the form.  It carries the category only if the
    category entered is not empty and is not the category of the record,
    and the amount only if the amount entered is not zero and is not the
    amount of the record.  So an amount edited to 0 is not sent, and if the
    server then answers 200 the form reports success and closes. *)
Theorem edit_form_sends_changes (API_BASE_URL : string) (token : option string)
    (post : request → outcome response)
    (expense : gmap string jvalue) (expense_id : Z)
    (edit_category : string) (edit_amount : spec_float) (edit_date : date) :
  let out := edit_expense_form API_BASE_URL token post expense expense_id
                               edit_category edit_amount edit_date in
  ∃ req,
    out.2 = [req] ∧
    url req = API_BASE_URL +:+ "/update_expense/" +:+ pretty expense_id ∧
    body req !! "date" = Some (JString (isoformat edit_date)) ∧
    body req !! "category"
      = (if same_text (expense !! "category") edit_category || negb (filled edit_category)
         then None else Some (JString edit_category)) ∧
    body req !! "amount"
      = (if same_amount (expense !! "amount") edit_amount
            || negb (number_truthy (NFloat edit_amount))
         then None else Some (JNumber edit_amount)) ∧
    (∀ s resp, edit_amount = S754_zero s →
       post req = Ok resp → status_code resp = 200 →
       body req !! "amount" = None ∧
       out.1 = [show (st_success "Expense updated successfully!"); del_edit_expense; st_rerun]).
Proof.
  cbv zeta. unfold edit_expense_form.
  set (category := if same_text _ _ then None else Some edit_category).
  set (amount := if same_amount _ _ then None else Some (NFloat edit_amount)).
  destruct (update_expense_data category amount (Some edit_date)) as [data|e] eqn:Hdata.
  2:{ exfalso. unfold update_expense_data, category, amount in Hdata.
      destruct (same_text _ _); destruct (same_amount _ _); cbn in Hdata;
        repeat (match type of Hdata with context [if ?b then _ else _] => destruct b end;
                cbn in Hdata); discriminate. }
  destruct (update_expense_data_fields _ _ _ _ Hdata) as (Hc & Ha & Hd).
  exists {| url := API_BASE_URL +:+ "/update_expense/" +:+ pretty expense_id;
            body := data; headers := get_headers token |}.
  assert (Hamount : data !! "amount"
                    = (if same_amount (expense !! "amount") edit_amount
                          || negb (number_truthy (NFloat edit_amount))
                       then None else Some (JNumber edit_amount))).
  { rewrite Ha. unfold amount. destruct (same_amount _ _); [done|].
    cbn [orb py_float]. by destruct (number_truthy (NFloat edit_amount)). }
  unfold update_expense. rewrite Hdata.
  set (req := {| url := _; body := data; headers := _ |}).
  split.
  { destruct (post req) as [resp|e]; [|done].
    destruct (status_code resp =? 200); [done|].
    by destruct (response_json resp). }
  change (body req) with data. change (url req)
    with (API_BASE_URL +:+ "/update_expense/" +:+ pretty expense_id).
  split; [done|]. split; [exact Hd|]. split.
  { rewrite Hc. unfold category. destruct (same_text _ _); [done|].
    cbn [orb]. by destruct (filled edit_category). }
  split; [exact Hamount|].
  intros s resp -> Hpost Hstatus. split.
  - rewrite Hamount. by rewrite orb_true_r.
  - rewrite Hpost, Hstatus. reflexivity.
Qed.

(** ** Search and filter *)

Lemma search_expenses_kept (lower : string → string) (search_term : string)
    (expenses kept : list (gmap string jvalue)) :
  search_expenses lower search_term expenses = Ok kept →
  sublist kept expenses ∧
  ∀ e, e ∈ kept ↔
       e ∈ expenses ∧ ∃ c, category_lower lower e = Ok c ∧ py_in (lower search_term) c = true.
Proof.
  revert kept. induction expenses as [|x rest IH]; intros kept; cbn [search_expenses].
  - intros [= <-]. split; [constructor|]. intros e. split.
    + by intros ?%elem_of_nil.
    + by intros [?%elem_of_nil _].
  - destruct (category_lower lower x) as [c|err] eqn:Hc; cbn [obind]; [|done].
    destruct (search_expenses lower search_term rest) as [kept'|err]; cbn [obind]; [|done].
    destruct (IH kept' eq_refl) as [Hsub Hmem].
    destruct (py_in (lower search_term) c) eqn:Hin; intros [= <-].
    + split; [by constructor|]. intros e. rewrite !elem_of_cons, Hmem. split.
      * intros [->|[He Hp]]; [|naive_solver]. split; [by left|]. exists c. by split.
      * intros [[->|He] Hp]; [by left|]. right. by split.
    + split; [by constructor|]. intros e. rewrite elem_of_cons, Hmem. split.
      * intros [He Hp]. split; [by right|done].
      * intros [[->|He] (c' & Hc' & Hp)]; [|naive_solver].
        rewrite Hc in Hc'. injection Hc' as <-. congruence.
Qed.

Lemma type_filter_kept (amount_type : string) (expenses : list (gmap string jvalue)) :
  sublist (List.filter (has_type amount_type) expenses) expenses ∧
  ∀ e, e ∈ List.filter (has_type amount_type) expenses ↔
       e ∈ expenses ∧ has_type amount_type e = true.
Proof.
  split.
  - induction expenses as [|x rest IH]; cbn [List.filter]; [constructor|].
    destruct (has_type amount_type x); by constructor.
  - intros e. rewrite !list_elem_of_In. apply filter_In.
Qed.

(** When the search and filter of the expenses tab do not raise, what they
    show is a sublist of the expenses, in their order, and an expense is
    shown exactly when it passes the search (if a search term is given:
    the lowered term occurs in its lowered category) and the type filter
    ("Income": credit, "Expenses": debit, anything else: no filter). *)
Theorem filter_expenses_shows (lower : string → string)
    (expenses shown : list (gmap string jvalue)) (search_term filter_type : string) :
  filter_expenses lower expenses search_term filter_type = Ok shown →
  sublist shown expenses ∧
  ∀ e, e ∈ shown ↔
       e ∈ expenses ∧
       (search_term = "" ∨
        ∃ c, category_lower lower e = Ok c ∧ py_in (lower search_term) c = true) ∧
       (filter_type = "Income" → has_type "credit" e = true) ∧
       (filter_type = "Expenses" → has_type "debit" e = true).
Proof.
  unfold filter_expenses.
  assert (Hfirst : ∀ found,
            (if filled search_term then search_expenses lower search_term expenses
             else Ok expenses) = Ok found →
            sublist found expenses ∧
            ∀ e, e ∈ found ↔
                 e ∈ expenses ∧
                 (search_term = "" ∨
                  ∃ c, category_lower lower e = Ok c ∧ py_in (lower search_term) c = true)).
  { intros found. destruct (filled search_term) eqn:Hs.
    - apply filled_true in Hs. intros [Hsub Hmem]%search_expenses_kept.
      split; [done|]. intros e. rewrite Hmem. naive_solver.
    - assert (search_term = "") as ->.
      { unfold filled in Hs. by apply negb_false_iff, String.eqb_eq in Hs. }
      intros [= <-]. split; [done|]. naive_solver. }
  destruct (if filled search_term then _ else _) as [found|err]; cbn [obind]; [|done].
  destruct (Hfirst found eq_refl) as [Hsub Hmem]. clear Hfirst.
  destruct (String.eqb_spec filter_type "Income") as [->|Hni].
  - intros [= <-]. destruct (type_filter_kept "credit" found) as [Hsub' Hmem'].
    split; [by etrans|]. intros e. rewrite Hmem', Hmem. naive_solver.
  - destruct (String.eqb_spec filter_type "Expenses") as [->|Hne].
    + intros [= <-]. destruct (type_filter_kept "debit" found) as [Hsub' Hmem'].
      split; [by etrans|]. intros e. rewrite Hmem', Hmem. naive_solver.
    + intros [= <-]. split; [done|]. intros e. rewrite Hmem. naive_solver.
Qed.

Lemma filter_expenses_shows_witness :
  let food : gmap string jvalue :=
    <["amount_type" := JText "debit"]> {[ "category" := JText "food" ]} in
  let pay : gmap string jvalue :=
    <["amount_type" := JText "credit"]> {[ "category" := JText "salary" ]} in
  sublist [food] [food; pay] ∧
  ∀ e, e ∈ [food] ↔
       e ∈ [food; pay] ∧
       ("oo" = "" ∨ ∃ c, category_lower id e = Ok c ∧ py_in (id "oo") c = true) ∧
       ("Expenses" = "Income" → has_type "credit" e = true) ∧
       ("Expenses" = "Expenses" → has_type "debit" e = true).
Proof.
  intros food pay.
  apply (filter_expenses_shows id [food; pay] [food] "oo" "Expenses").
  vm_compute. reflexivity.
Defined.

(** A search over records one of which has a category that is present but
    is not a string (null, or a number) raises; without a search term the
    categories are not read and nothing raises. *)
Theorem filter_expenses_raises (lower : string → string)
    (expenses : list (gmap string jvalue)) (search_term filter_type : string) :
  (∃ err, filter_expenses lower expenses search_term filter_type = Raise err) ↔
  search_term ≠ "" ∧
  ∃ e, e ∈ expenses ∧ e !! "category" ≠ None ∧ ∀ s, e !! "category" ≠ Some (JText s).
Proof.
  unfold filter_expenses.
  assert (Hsearch : (∃ err, search_expenses lower search_term expenses = Raise err) ↔
                    ∃ e, e ∈ expenses ∧ e !! "category" ≠ None ∧
                         ∀ s, e !! "category" ≠ Some (JText s)).
  { induction expenses as [|x rest IH]; cbn [search_expenses].
    - split; [by intros [? ?]|]. by intros (e & ?%elem_of_nil & _).
    - unfold category_lower at 1.
      destruct (x !! "category") as [[|s|[n|f]]|] eqn:Hx; cbn [obind].
      + split; [|by eexists]. intros _. exists x. split; [by left|]. by rewrite Hx.
      + destruct (search_expenses lower search_term rest) as [kept|err]; cbn [obind].
        * split; [by intros [? ?]|]. intros (e & [->|He]%elem_of_cons & Hnone & Htext).
          -- by destruct (Htext s).
          -- destruct (proj2 IH) as [? [=]]. by exists e.
        * split; [|by eexists]. intros _.
          destruct (proj1 IH) as (e & He & Hp); [by eexists|].
          exists e. split; [by right|done].
      + split; [|by eexists]. intros _. exists x. split; [by left|]. by rewrite Hx.
      + split; [|by eexists]. intros _. exists x. split; [by left|]. by rewrite Hx.
      + destruct (search_expenses lower search_term rest) as [kept|err]; cbn [obind].
        * split; [by intros [? ?]|]. intros (e & [->|He]%elem_of_cons & Hnone & Htext).
          -- done.
          -- destruct (proj2 IH) as [? [=]]. by exists e.
        * split; [|by eexists]. intros _.
          destruct (proj1 IH) as (e & He & Hp); [by eexists|].
          exists e. split; [by right|done]. }
  destruct (filled search_term) eqn:Hs.
  - apply filled_true in Hs. rewrite <-Hsearch.
    destruct (search_expenses lower search_term expenses) as [kept|err]; cbn [obind].
    + split; [by intros [? ?]|]. by intros [_ [? ?]].
    + split; [|by eexists]. intros _. split; [done|by eexists].
  - assert (search_term = "") as ->.
    { unfold filled in Hs. by apply negb_false_iff, String.eqb_eq in Hs. }
    cbn [obind]. split; [by intros [? ?]|]. by intros [? _].
Qed.

(** ** The chat transcript *)






(** The transcript of the sample run. *)
Example chat_sample_transcript :
  SessionState.chat_history
    (foldl (λ s i, interact i s) SessionState.initial
       [do_chat (λ _, (true, "You spent 12.00 on food.")) (Some "What did I spend?") false;
        do_chat (λ _, (false, "Error: timed out")) (Some "And last month?") false])
  = [{| role := "user"; content := "What did I spend?" |};
     {| role := "assistant"; content := "You spent 12.00 on food." |};
     {| role := "user"; content := "And last month?" |};
     {| role := "assistant"; content := "Sorry, I encountered an error." |}].
Proof. reflexivity. Qed.

(** A login that succeeds, one that is refused, and one whose answer lacks
    the token. *)
Example login_samples :
  let s := SessionState.initial in
  let answer status fields := λ _ : form_request,
    Ok {| status_code := status; response_json := Ok fields |} in
  login "http://localhost:8000" (answer 200 {[ "access_token" := "tok" ]}) "a@b.com" "pw" s
  = ((true, "Login successful!"),
     {| SessionState.token := Some "tok"; SessionState.user_email := Some "a@b.com";
        SessionState.chat_history := [] |},
     [{| form_url := "http://localhost:8000/token";
         form_data := <["password" := "pw"]> {[ "username" := "a@b.com" ]};
         form_headers := {[ "Content-Type" := "application/x-www-form-urlencoded" ]} |}]) ∧
  (login "http://localhost:8000" (answer 401 {[ "detail" := "Incorrect password" ]})
         "a@b.com" "pw" s).1
  = ((false, "Incorrect password"), s) ∧
  (login "http://localhost:8000" (answer 200 ∅) "a@b.com" "pw" s).1
  = ((false, "Error: 'access_token'"), s).
Proof. repeat split; vm_compute; reflexivity. Qed.

(** The add form with an amount of 0.0, and with an amount of 12. *)
Example add_form_samples :
  let post := λ _ : api_request, Ok {| status_code := 200; response_json := Ok ∅ |} in
  add_expense_form "http://localhost:8000" None post "Food" (NFloat (S754_zero false))
                   "debit" (Some {| year := 2024; month := 3; day := 7 |}) true
  = ([show (st_warning "Please fill in all required fields")], []) ∧
  add_expense_form "http://localhost:8000" None post "Food" (NInt 12)
                   "debit" None true
  = ([show (st_success "Expense added successfully!"); st_rerun],
     [{| api_url := "http://localhost:8000/addexpense";
         api_json := <["date" := JNull]>
                     (<["amount_type" := JText "debit"]>
                     (<["amount" := JNum (NFloat (S754_finite false 6755399441055744 (-49)))]>
                     {[ "category" := JText "Food" ]}));
         api_headers := {[ "Content-Type" := "application/json" ]} |}]).
Proof. split; vm_compute; reflexivity. Qed.
